(** * Document Processor (app.py): a shallow embedding and its properties

    The program is a single Streamlit script.  Its own code is embedded
    below function by function (converse, extract_text_from_pdf,
    process_image, build_prompt and the module-level pipeline).  The
    libraries it calls (pdfplumber, PIL, boto3, json.loads, the float
    printer) are not part of the repository: they appear as the fields of
    an environment record, and every theorem holds for every environment.
    Calls into Streamlit are recorded as events of a trace; they are taken
    to return normally, except st.stop which ends the script run. *)

From Stdlib Require Import List NArith ZArith Bool String Ascii Lia.
From Stdlib Require Import DecimalString PrimFloat.
Import ListNotations.

Local Open Scope N_scope.

(** ** Python strings *)

(** A Python str is a sequence of Unicode code points. *)
Definition char := N.
Definition pystr := list char.

(** Source literals are written as Rocq string literals, whose bytes are the
    UTF-8 encoding of the text; [lit] decodes them to code points. *)
Fixpoint utf8_decode (bs : list N) : pystr :=
  match bs with
  | [] => []
  | b :: rest =>
      if b <? 0x80 then b :: utf8_decode rest
      else if b <? 0xE0 then
        match rest with
        | c1 :: r =>
            N.lor (N.shiftl (N.land b 0x1F) 6) (N.land c1 0x3F) :: utf8_decode r
        | _ => []
        end
      else if b <? 0xF0 then
        match rest with
        | c1 :: c2 :: r =>
            N.lor (N.shiftl (N.land b 0x0F) 12)
              (N.lor (N.shiftl (N.land c1 0x3F) 6) (N.land c2 0x3F))
            :: utf8_decode r
        | _ => []
        end
      else
        match rest with
        | c1 :: c2 :: c3 :: r =>
            N.lor (N.shiftl (N.land b 0x07) 18)
              (N.lor (N.shiftl (N.land c1 0x3F) 12)
                 (N.lor (N.shiftl (N.land c2 0x3F) 6) (N.land c3 0x3F)))
            :: utf8_decode r
        | _ => []
        end
  end.

Definition lit (s : string) : pystr :=
  utf8_decode (map N_of_ascii (list_ascii_of_string s)).

Arguments lit : simpl never.

Definition LF : char := 10.
Definition QUOTE : char := 34.
Definition BACKSLASH : char := 92.

(** One line of a multi-line literal: the text and its newline. *)
Definition line (s : string) : pystr := lit s ++ [LF].

(** A double-quoted fragment of a literal. *)
Definition quoted (s : string) : pystr := QUOTE :: lit s ++ [QUOTE].

Fixpoint pystr_eqb (a b : pystr) : bool :=
  match a, b with
  | [], [] => true
  | x :: a', y :: b' => (x =? y) && pystr_eqb a' b'
  | _, _ => false
  end.

(** str.startswith(prefix) *)
Fixpoint startswith (s prefix : pystr) : bool :=
  match prefix, s with
  | [], _ => true
  | p :: prefix', c :: s' => (c =? p) && startswith s' prefix'
  | _ :: _, [] => false
  end.

(** str.isspace on one code point: the Unicode whitespace of CPython. *)
Definition isspace (c : char) : bool :=
  ((0x09 <=? c) && (c <=? 0x0D)) || ((0x1C <=? c) && (c <=? 0x20))
  || (c =? 0x85) || (c =? 0xA0) || (c =? 0x1680)
  || ((0x2000 <=? c) && (c <=? 0x200A))
  || (c =? 0x2028) || (c =? 0x2029) || (c =? 0x202F) || (c =? 0x205F)
  || (c =? 0x3000).

Fixpoint lstrip (s : pystr) : pystr :=
  match s with
  | [] => []
  | c :: s' => if isspace c then lstrip s' else s
  end.

Definition rstrip (s : pystr) : pystr := rev (lstrip (rev s)).

(** str.strip(): leading and trailing whitespace are both removed. *)
Definition strip (s : pystr) : pystr := rstrip (lstrip s).

(** Truth value of a str: non-empty. *)
Definition str_truthy (s : pystr) : bool :=
  match s with [] => false | _ :: _ => true end.

(** ** Python values *)

Set Warnings "-register-all".

(** The values that json.loads produces and json.dumps consumes, which are
    also the values of the service reply.  A dict keeps its insertion
    order, so it is an association list; lookups take the first binding. *)
Inductive value : Type :=
| VNone
| VBool (b : bool)
| VInt (z : Z)
| VFloat (f : float)
| VStr (s : pystr)
| VList (l : list value)
| VDict (items : list (pystr * value)).

Definition dict := list (pystr * value).

Definition type_name (v : value) : string :=
  match v with
  | VNone => "NoneType"
  | VBool _ => "bool"
  | VInt _ => "int"
  | VFloat _ => "float"
  | VStr _ => "str"
  | VList _ => "list"
  | VDict _ => "dict"
  end.

(** ** Exceptions *)

(** An exception instance, as far as the program observes it: its class
    and what str(e) gives.  Only classes deriving from Exception occur. *)
Record exn : Type := mk_exn { exn_class : string; exn_str : pystr }.

Inductive result (A : Type) : Type :=
| Ok (a : A)
| Raise (e : exn).
Arguments Ok {A} a.
Arguments Raise {A} e.

(** Sequencing of two steps that may raise. *)
Definition and_then {A B : Type} (r : result A) (k : A -> result B) : result B :=
  match r with
  | Ok a => k a
  | Raise e => Raise e
  end.

Definition AttributeError (msg : pystr) : exn := mk_exn "AttributeError" msg.
Definition TypeError (msg : pystr) : exn := mk_exn "TypeError" msg.
Definition IndexError (msg : pystr) : exn := mk_exn "IndexError" msg.
Definition KeyError (key_repr : pystr) : exn := mk_exn "KeyError" key_repr.
Definition RuntimeError (msg : pystr) : exn := mk_exn "RuntimeError" msg.

(** ** dict and subscript operations *)

Fixpoint dict_lookup (d : dict) (key : pystr) : option value :=
  match d with
  | [] => None
  | (k, v) :: d' => if pystr_eqb k key then Some v else dict_lookup d' key
  end.

Definition dict_keys (d : dict) : list pystr := map fst d.

(** d.get(key, default) on a dict *)
Definition dict_get (d : dict) (key : pystr) (default : value) : value :=
  match dict_lookup d key with
  | Some v => v
  | None => default
  end.

(** obj.get(key, default) on any value: only a dict has the method. *)
Definition py_get (obj : value) (key : pystr) (default : value) : result value :=
  match obj with
  | VDict d => Ok (dict_get d key default)
  | _ => Raise (AttributeError
                  ([39] ++ lit (type_name obj) ++ lit "' object has no attribute 'get'"))
  end.

(** repr of an int, also its JSON form *)
Definition int_repr (z : Z) : pystr := lit (NilZero.string_of_int (Z.to_int z)).

(** repr of a str that holds no quote, backslash or unprintable character,
    as the literal keys of this program do: the text in single quotes. *)
Definition repr_plain (s : pystr) : pystr := [39] ++ s ++ [39].

Inductive subscript : Type :=
| KStr (s : string)
| KInt (i : Z).

(** Element [i] of a sequence, negative indices counting from the end. *)
Definition seq_index {A : Type} (l : list A) (i : Z) : option A :=
  let n := Z.of_nat (List.length l) in
  if ((0 <=? i) && (i <? n))%Z then nth_error l (Z.to_nat i)
  else if ((- n <=? i) && (i <? 0))%Z then nth_error l (Z.to_nat (n + i))
  else None.

(** obj[key] *)
Definition py_getitem (obj : value) (key : subscript) : result value :=
  match obj, key with
  | VDict d, KStr k =>
      match dict_lookup d (lit k) with
      | Some v => Ok v
      | None => Raise (KeyError (repr_plain (lit k)))
      end
  | VDict d, KInt i => Raise (KeyError (int_repr i))
  | VList l, KInt i =>
      match seq_index l i with
      | Some v => Ok v
      | None => Raise (IndexError (lit "list index out of range"))
      end
  | VList _, KStr _ =>
      Raise (TypeError (lit "list indices must be integers or slices, not str"))
  | VStr s, KInt i =>
      match seq_index s i with
      | Some c => Ok (VStr [c])
      | None => Raise (IndexError (lit "string index out of range"))
      end
  | VStr _, KStr _ =>
      Raise (TypeError (lit "string indices must be integers, not 'str'"))
  | _, _ =>
      Raise (TypeError ([39] ++ lit (type_name obj) ++ lit "' object is not subscriptable"))
  end.

(** v == s for a str literal s: true exactly on the equal str. *)
Definition value_eq_str (v : value) (s : pystr) : bool :=
  match v with
  | VStr t => pystr_eqb t s
  | _ => false
  end.

(** ** json.dumps(obj, indent=n) *)

Definition hex_digit (n : N) : char := if n <? 10 then 48 + n else 87 + n.

(** The escape \uXXXX of a 16-bit unit, in lower-case hex. *)
Definition u_escape (n : N) : pystr :=
  [BACKSLASH; 117;
   hex_digit (N.shiftr n 12 mod 16); hex_digit (N.shiftr n 8 mod 16);
   hex_digit (N.shiftr n 4 mod 16); hex_digit (n mod 16)].

(** One character of a JSON string under ensure_ascii: everything outside
    the printable ASCII range is escaped, astral characters as a surrogate
    pair. *)
Definition escape_char (c : char) : pystr :=
  if c =? BACKSLASH then [BACKSLASH; BACKSLASH]
  else if c =? QUOTE then [BACKSLASH; QUOTE]
  else if c =? 8 then [BACKSLASH; 98]
  else if c =? 12 then [BACKSLASH; 102]
  else if c =? 10 then [BACKSLASH; 110]
  else if c =? 13 then [BACKSLASH; 114]
  else if c =? 9 then [BACKSLASH; 116]
  else if (32 <=? c) && (c <=? 126) then [c]
  else if c <? 0x10000 then u_escape c
  else
    let n := c - 0x10000 in
    u_escape (N.lor 0xD800 (N.land (N.shiftr n 10) 0x3FF))
    ++ u_escape (N.lor 0xDC00 (N.land n 0x3FF)).

Definition encode_string (s : pystr) : pystr :=
  QUOTE :: flat_map escape_char s ++ [QUOTE].

Definition newline_indent (indent level : nat) : pystr :=
  LF :: repeat 32 (indent * level).

Section Dumps.

(** float.__repr__, the shortest decimal that reads back as the float *)
Variable float_repr : float -> pystr.

Definition float_str (f : float) : pystr :=
  if PrimFloat.is_nan f then lit "NaN"
  else if PrimFloat.eqb f PrimFloat.infinity then lit "Infinity"
  else if PrimFloat.eqb f PrimFloat.neg_infinity then lit "-Infinity"
  else float_repr f.

Fixpoint dumps_at (indent level : nat) (v : value) {struct v} : pystr :=
  match v with
  | VNone => lit "null"
  | VBool true => lit "true"
  | VBool false => lit "false"
  | VInt z => int_repr z
  | VFloat f => float_str f
  | VStr s => encode_string s
  | VList [] => lit "[]"
  | VList (x :: xs) =>
      lit "[" ++ newline_indent indent (S level) ++ dumps_at indent (S level) x
      ++ (fix rest (l : list value) : pystr :=
            match l with
            | [] => []
            | y :: ys =>
                lit "," ++ newline_indent indent (S level)
                ++ dumps_at indent (S level) y ++ rest ys
            end) xs
      ++ newline_indent indent level ++ lit "]"
  | VDict [] => lit "{}"
  | VDict ((k, x) :: xs) =>
      lit "{" ++ newline_indent indent (S level)
      ++ encode_string k ++ lit ": " ++ dumps_at indent (S level) x
      ++ (fix rest (l : list (pystr * value)) : pystr :=
            match l with
            | [] => []
            | (k', y) :: ys =>
                lit "," ++ newline_indent indent (S level)
                ++ encode_string k' ++ lit ": "
                ++ dumps_at indent (S level) y ++ rest ys
            end) xs
      ++ newline_indent indent level ++ lit "}"
  end.

Definition json_dumps (obj : value) (indent : nat) : pystr :=
  dumps_at indent 0 obj.

End Dumps.

(** ** The libraries the script calls *)

(** st.file_uploader's result: the file name, its declared media type and
    its bytes. *)
Record UploadedFile : Type := mk_file {
  name : pystr;
  type : pystr;
  data : list N
}.

(** A page of an opened PDF: what page.extract_text() gives (None, a str,
    or an exception). *)
Record Page : Type := mk_page { extract_text : result (option pystr) }.

Record PDF : Type := mk_pdf { pages : list Page }.

(** A decoded image: the four attributes the script reads, and the pixel
    data it never reads. *)
Record Image : Type := mk_image {
  format : option pystr;
  mode : pystr;
  width : Z;
  height : Z;
  pixels : list N
}.

(** The keyword arguments of brt.converse. *)
Record ContentBlock : Type := mk_block { text : pystr }.

Record Message : Type := mk_message { role : pystr; content : list ContentBlock }.

Record InferenceConfig : Type := mk_config {
  maxTokens : Z;
  temperature : float;
  topP : float
}.

Record Request : Type := mk_request {
  modelId : pystr;
  messages : list Message;
  inferenceConfig : InferenceConfig
}.

(** A bedrock-runtime client: its reply to a converse request. *)
Record Client : Type := mk_client { client_converse : Request -> result value }.

Record Env : Type := mk_env {
  secrets : dict;
  boto3_client : string -> value -> value -> value -> result Client;
  pdfplumber_open : UploadedFile -> result PDF;
  Image_open : UploadedFile -> result Image;
  json_loads : pystr -> result value;
  float_repr : float -> pystr
}.

(** ** Effects of the script *)

Inductive event : Type :=
| st_title (body : string)
| st_caption (body : string)
| st_file_uploader (label : string) (types : list string)
| st_info (body : pystr)
| st_button (label : string)
| st_spinner (body : string)
| st_error (body : string)
| st_text (body : value)
| st_subheader (body : string)
| st_columns (n : nat)
| st_metric (label : string) (v : value)
| st_success (body : value)
| st_warning (body : string)
| st_tabs (labels : list string)
| st_text_area (label : string) (v : pystr) (h : Z)
| st_json (body : value)
| st_download_button (label : string) (payload : pystr) (file_name mime : string)
| brt_converse (req : Request).

(** How a computation ends early: st.stop(), or an exception in flight. *)
Inductive halt : Type :=
| Stop
| Exc (e : exn).

(** A computation: the events it produced, then its value or how it ended. *)
Definition M (A : Type) : Type := (list event * (A + halt))%type.

Definition ret {A : Type} (a : A) : M A := ([], inl a).

Definition bind {A B : Type} (m : M A) (k : A -> M B) : M B :=
  match m with
  | (t, inl a) => let (t', r) := k a in (t ++ t', r)
  | (t, inr h) => (t, inr h)
  end.

Definition emit (e : event) : M unit := ([e], inl tt).

Definition st_stop {A : Type} : M A := ([], inr Stop).

Definition raise {A : Type} (e : exn) : M A := ([], inr (Exc e)).

Definition lift {A : Type} (r : result A) : M A :=
  match r with
  | Ok a => ret a
  | Raise e => raise e
  end.

(** try: body / except Exception as e: handler e.  The exception behind
    st.stop() does not derive from Exception and passes through. *)
Definition try_except {A : Type} (body : M A) (handler : exn -> M A) : M A :=
  match body with
  | (t, inr (Exc e)) => let (t', r) := handler e in (t ++ t', r)
  | _ => body
  end.

Definition trace {A : Type} (m : M A) : list event := fst m.
Definition outcome {A : Type} (m : M A) : A + halt := snd m.

Declare Scope py_scope.
Delimit Scope py_scope with py.
Notation "x <- m ;; k" := (bind m (fun x => k))
  (at level 61, m at next level, right associativity) : py_scope.
Notation "m ;; k" := (bind m (fun _ => k))
  (at level 61, right associativity) : py_scope.
Local Open Scope py_scope.

(** ** app.py *)

Definition MODEL_ID : pystr := lit "apac.anthropic.claude-3-5-sonnet-20241022-v2:0".

Set Warnings "-inexact-float".

(** The keyword arguments of the call on lines 35-48 *)
Definition converse_request (model_id : pystr) (user_message : pystr) : Request :=
  {| modelId := model_id;
     messages := [ {| role := lit "user";
                      content := [ {| text := user_message |} ] |} ];
     inferenceConfig := {| maxTokens := 8192;
                           temperature := 0.5;
                           topP := 0.9 |} |}.

(** The expression of line 49:
    response["output"]["message"]["content"][0]["text"] *)
Definition reply_text (response : value) : result value :=
  and_then (py_getitem response (KStr "output")) (fun output =>
  and_then (py_getitem output (KStr "message")) (fun message =>
  and_then (py_getitem message (KStr "content")) (fun content =>
  and_then (py_getitem content (KInt 0)) (fun first =>
  py_getitem first (KStr "text"))))).

(** converse(brt, model_id, user_message), lines 33-51 *)
Definition converse (brt : Client) (model_id : pystr) (user_message : pystr) : M value :=
  try_except
    (let request := converse_request model_id user_message in
     emit (brt_converse request) ;;
     response <- lift (client_converse brt request) ;;
     lift (reply_text response))
    (fun e => raise (RuntimeError (lit "Bedrock invocation failed: " ++ exn_str e))).

(** The loop of extract_text_from_pdf, lines 57-60: [text] is the
    accumulator, a page whose text is None or empty leaves it unchanged. *)
Fixpoint pdf_pages_loop (ps : list Page) (text : pystr) : M pystr :=
  match ps with
  | [] => ret text
  | page :: rest =>
      page_text <- lift (extract_text page) ;;
      match page_text with
      | Some (c :: s) => pdf_pages_loop rest (text ++ (c :: s) ++ [LF])
      | _ => pdf_pages_loop rest text
      end
  end.

(** The dict literal of process_image, lines 66-72 *)
Definition image_record (image : Image) : dict :=
  [ (lit "document_type", VStr (lit "Image"));
    (lit "format", match format image with Some f => VStr f | None => VNone end);
    (lit "mode", VStr (mode image));
    (lit "width", VInt (width image));
    (lit "height", VInt (height image)) ].

(** build_prompt(document_text), lines 75-108 *)
Definition build_prompt (document_text : pystr) : pystr :=
  [LF]
  ++ line "You are an AI document intelligence assistant."
  ++ line ""
  ++ line "TASKS:"
  ++ line "1. Generate a concise business-friendly summary."
  ++ line "2. Identify the document domain (Healthcare, Legal, Finance, Insurance, Government, etc.)."
  ++ line "3. Identify document origin/geography (India, US, EU, etc.) if possible."
  ++ line "4. Identify document type."
  ++ line "5. Decide ERP readiness."
  ++ line "6. Transform the data into structured JSON."
  ++ line ""
  ++ line "ERP READINESS RULES:"
  ++ line "- READY: Key fields are clear and usable"
  ++ line "- NOT_READY: Missing or unclear fields"
  ++ line ""
  ++ line "STRICT OUTPUT FORMAT (JSON ONLY):"
  ++ line "{"
  ++ lit "  " ++ quoted "summary" ++ lit ": " ++ quoted "<short summary>" ++ line ","
  ++ lit "  " ++ quoted "domain" ++ lit ": "
     ++ quoted "<Healthcare | Legal | Finance | Insurance | Other>" ++ line ","
  ++ lit "  " ++ quoted "origin" ++ lit ": " ++ quoted "<Country or Region or Unknown>"
     ++ line ","
  ++ lit "  " ++ quoted "document_type" ++ lit ": "
     ++ quoted "<Invoice | Judgment | Medical Report | Policy | Other>" ++ line ","
  ++ lit "  " ++ quoted "erp_status" ++ lit ": " ++ quoted "<READY | NOT_READY>" ++ line ","
  ++ lit "  " ++ quoted "transformed_data" ++ line ": {"
  ++ lit "    " ++ quoted "key_points" ++ line ": [],"
  ++ lit "    " ++ quoted "entities" ++ line ": {},"
  ++ lit "    " ++ quoted "confidence" ++ line ": 0.0"
  ++ line "  }"
  ++ line "}"
  ++ line ""
  ++ line "<Input_Text>"
  ++ document_text ++ [LF]
  ++ line "</Input_Text>".

Section Script.

Variable env : Env.

(** Lines 19-21 *)
Definition AWS_REGION : value :=
  dict_get (secrets env) (lit "AWS_REGION") (VStr (lit "ap-south-1")).
Definition AWS_ACCESS_KEY : value :=
  dict_get (secrets env) (lit "AWS_ACCESS_KEY_ID") VNone.
Definition AWS_SECRET_KEY : value :=
  dict_get (secrets env) (lit "AWS_SECRET_ACCESS_KEY") VNone.

(** get_bedrock_client(), lines 24-30 *)
Definition get_bedrock_client : M Client :=
  lift (boto3_client env "bedrock-runtime" AWS_REGION AWS_ACCESS_KEY AWS_SECRET_KEY).

(** extract_text_from_pdf(file), lines 54-61 *)
Definition extract_text_from_pdf (file : UploadedFile) : M pystr :=
  pdf <- lift (pdfplumber_open env file) ;;
  text <- pdf_pages_loop (pages pdf) [] ;;
  ret (strip text).

(** process_image(file), lines 64-72 *)
Definition process_image (file : UploadedFile) : M value :=
  image <- lift (Image_open env file) ;;
  ret (VDict (image_record image)).

(** json.loads(s): the argument must be a str. *)
Definition py_json_loads (s : value) : result value :=
  match s with
  | VStr t => json_loads env t
  | _ => Raise (TypeError (lit "the JSON object must be str, bytes or bytearray, not "
                           ++ lit (type_name s)))
  end.

(** Lines 131-142: extraction by declared media type. *)
Definition extract_by_type (uploaded_file : UploadedFile) : M pystr :=
  if pystr_eqb (type uploaded_file) (lit "application/pdf") then
    extract_text_from_pdf uploaded_file
  else if startswith (type uploaded_file) (lit "image/") then
    image_info <- process_image uploaded_file ;;
    ret (json_dumps (float_repr env) image_info 2)
  else
    emit (st_error "Unsupported file type") ;;
    st_stop.

(** Lines 131-146: extraction, then the guard against empty content. *)
Definition extract (uploaded_file : UploadedFile) : M pystr :=
  extracted_text <- extract_by_type uploaded_file ;;
  if negb (str_truthy extracted_text) then
    emit (st_error "No content extracted") ;;
    st_stop
  else ret extracted_text.

(** The handler of lines 154-158.  [llm_response] is None when the name
    is not bound yet, which the script tests with locals(). *)
Definition failed {A : Type} (e : exn) (llm_response : option value) : M A :=
  emit (st_error "Failed to process document") ;;
  emit (st_text (VStr (exn_str e))) ;;
  emit (st_text (match llm_response with Some r => r | None => VStr [] end)) ;;
  st_stop.

(** Lines 150-158.  One try statement in the script; it is split here at
    the assignment of llm_response, which is what its handler tells
    apart.  The handler always ends in st.stop(), so the second part
    never runs after the first has failed. *)
Definition invoke_and_parse (prompt : pystr) : M value :=
  llm_response <-
    try_except
      (brt <- get_bedrock_client ;;
       converse brt MODEL_ID prompt)
      (fun e => failed e None) ;;
  try_except
    (lift (py_json_loads llm_response))
    (fun e => failed e (Some llm_response)).

(** Lines 163-176 *)
Definition summary_section (parsed : value) : M unit :=
  emit (st_subheader "📌 Document Summary") ;;
  emit (st_columns 3) ;;
  v1 <- lift (py_get parsed (lit "domain") (VStr (lit "Unknown"))) ;;
  emit (st_metric "Domain" v1) ;;
  v2 <- lift (py_get parsed (lit "origin") (VStr (lit "Unknown"))) ;;
  emit (st_metric "Origin" v2) ;;
  v3 <- lift (py_get parsed (lit "document_type") (VStr (lit "Unknown"))) ;;
  emit (st_metric "Document Type" v3) ;;
  v4 <- lift (py_get parsed (lit "summary") (VStr (lit "No summary available"))) ;;
  emit (st_success v4).

(** Lines 185-188 *)
Definition erp_branch (erp_status : value) : event :=
  if value_eq_str erp_status (lit "READY") then
    st_success (VStr (lit "✅ Ready to Load ERP Service"))
  else
    st_warning "⏳ Needs Manual Review Before ERP Load".

(** Lines 181-196 *)
Definition erp_section (parsed : value) : M unit :=
  emit (st_subheader "⚙️ ERP Readiness") ;;
  erp_status <- lift (py_get parsed (lit "erp_status") (VStr (lit "NOT_READY"))) ;;
  emit (erp_branch erp_status) ;;
  emit (st_columns 2) ;;
  emit (st_button "🚀 Send to ERP") ;;
  emit (st_button "📝 Mark for Manual Review").

(** Lines 201-219 *)
Definition details_section (extracted_text : pystr) (parsed : value) : M unit :=
  emit (st_tabs ["📝 Extracted Text"; "📊 Transformed Data"]%string) ;;
  emit (st_text_area "Extracted Content" extracted_text 400) ;;
  transformed_data <- lift (py_get parsed (lit "transformed_data") (VDict [])) ;;
  emit (st_json transformed_data) ;;
  emit (st_download_button "⬇ Download Transformed JSON"
          (json_dumps (float_repr env) transformed_data 2)
          "transformed_data.json" "application/json").

(** Lines 163-219: everything shown once the reply is parsed. *)
Definition present (extracted_text : pystr) (parsed : value) : M unit :=
  summary_section parsed ;;
  erp_section parsed ;;
  details_section extracted_text parsed.

(** Lines 129-219: the run that a click on the process button starts. *)
Definition process_document (uploaded_file : UploadedFile) : M unit :=
  emit (st_spinner "Processing document using CTD's Gen AI...") ;;
  extracted_text <- extract uploaded_file ;;
  let prompt := build_prompt extracted_text in
  parsed <- invoke_and_parse prompt ;;
  present extracted_text parsed.

(** Lines 111-127: the whole script, for the uploader's state and for
    whether the process button was clicked. *)
Definition app (uploaded_file : option UploadedFile) (clicked : bool) : M unit :=
  emit (st_title "📄 Document Processor") ;;
  emit (st_caption "Standalone Streamlit app | Summary → ERP Decision → Transformed Data") ;;
  emit (st_file_uploader "Upload PDF or Image" ["pdf"; "png"; "jpg"; "jpeg"]%string) ;;
  match uploaded_file with
  | None => ret tt
  | Some f =>
      emit (st_info (lit "Uploaded file: **" ++ name f ++ lit "**")) ;;
      emit (st_button "🚀 Process Document") ;;
      if clicked then process_document f else ret tt
  end.

End Script.

(** ** The interpreted result *)

(** The six values the script reads from the parsed reply, each by its own
    parsed.get(key, default) (lines 168, 171, 174, 176, 183 and 211). *)
Record InterpretedResult : Type := mk_result {
  summary : value;
  domain : value;
  origin : value;
  document_type : value;
  erp_status : value;
  transformed_data : value
}.

Definition interpreted (parsed : dict) : InterpretedResult :=
  {| summary := dict_get parsed (lit "summary") (VStr (lit "No summary available"));
     domain := dict_get parsed (lit "domain") (VStr (lit "Unknown"));
     origin := dict_get parsed (lit "origin") (VStr (lit "Unknown"));
     document_type := dict_get parsed (lit "document_type") (VStr (lit "Unknown"));
     erp_status := dict_get parsed (lit "erp_status") (VStr (lit "NOT_READY"));
     transformed_data := dict_get parsed (lit "transformed_data") (VDict []) |}.

(** The two presentations of the ERP decision. *)
Definition ready_path : event := st_success (VStr (lit "✅ Ready to Load ERP Service")).
Definition manual_review_path : event := st_warning "⏳ Needs Manual Review Before ERP Load".

(** What the script shows for an interpreted result. *)
Definition rendering (env : Env) (extracted_text : pystr) (r : InterpretedResult)
  : list event :=
  [ st_subheader "📌 Document Summary";
    st_columns 3;
    st_metric "Domain" (domain r);
    st_metric "Origin" (origin r);
    st_metric "Document Type" (document_type r);
    st_success (summary r);
    st_subheader "⚙️ ERP Readiness";
    erp_branch (erp_status r);
    st_columns 2;
    st_button "🚀 Send to ERP";
    st_button "📝 Mark for Manual Review";
    st_tabs ["📝 Extracted Text"; "📊 Transformed Data"]%string;
    st_text_area "Extracted Content" extracted_text 400;
    st_json (transformed_data r);
    st_download_button "⬇ Download Transformed JSON"
      (json_dumps (float_repr env) (transformed_data r) 2)
      "transformed_data.json" "application/json" ].

(** ** Notions the properties are stated with *)

(** The page texts that count: a page that gave None or the empty str is
    left out. *)
Definition yielded (texts : list (option pystr)) : list pystr :=
  flat_map (fun o => match o with
                     | Some (c :: s) => [c :: s]
                     | _ => []
                     end) texts.

(** Each text followed by a newline, in order. *)
Definition newline_joined (texts : list pystr) : pystr :=
  flat_map (fun t => t ++ [LF]) texts.

(** The text of the first content block of the reply's message, when the
    reply has that shape. *)
Definition first_text_segment (response : value) : option value :=
  match response with
  | VDict r =>
      match dict_lookup r (lit "output") with
      | Some (VDict output) =>
          match dict_lookup output (lit "message") with
          | Some (VDict message) =>
              match dict_lookup message (lit "content") with
              | Some (VList (VDict first :: _)) => dict_lookup first (lit "text")
              | _ => None
              end
          | _ => None
          end
      | _ => None
      end
  | _ => None
  end.

(** The four metadata keys of an image record. *)
Definition metadata_keys : list pystr :=
  [lit "format"; lit "mode"; lit "width"; lit "height"].

(** The same image with other pixel data. *)
Definition with_pixels (image : Image) (px : list N) : Image :=
  {| format := format image; mode := mode image;
     width := width image; height := height image; pixels := px |}.

(** The requests sent during a run, in order. *)
Definition requests (t : list event) : list Request :=
  flat_map (fun e => match e with brt_converse req => [req] | _ => [] end) t.

(** The error that converse raises for a cause [e] (line 51). *)
Definition invocation_failed (e : exn) : exn :=
  RuntimeError (lit "Bedrock invocation failed: " ++ exn_str e).

(** What the handler of lines 154-158 shows for the exception [e]; [shown]
    is the raw reply, or the empty str when there is none yet. *)
Definition failure_report (e : exn) (shown : value) : list event :=
  [ st_error "Failed to process document";
    st_text (VStr (exn_str e));
    st_text shown ].

(** The error shown when nothing was extracted (line 145). *)
Definition empty_content_error : event := st_error "No content extracted".

(** ** Scenarios *)

(** A one-page PDF and its upload. *)
Definition invoice_pdf : PDF :=
  {| pages := [ {| extract_text := Ok (Some (lit "Invoice #42, Total $100")) |} ] |}.

Definition invoice_file : UploadedFile :=
  {| name := lit "invoice.pdf"; type := lit "application/pdf"; data := [] |}.

(** A page whose text starts with a blank. *)
Definition indented_pdf : PDF :=
  {| pages := [ {| extract_text := Ok (Some (lit " Invoice #42")) |} ] |}.

(** A PDF whose only page has no text. *)
Definition blank_pdf : PDF := {| pages := [ {| extract_text := Ok None |} ] |}.

(** A decoded PNG of 10 by 10 white pixels, and its upload. *)
Definition white_png : Image :=
  {| format := Some (lit "PNG"); mode := lit "RGB";
     width := 10; height := 10; pixels := repeat 255 300 |}.

Definition png_file : UploadedFile :=
  {| name := lit "white.png"; type := lit "image/png"; data := [] |}.

(** A second upload of the same PDF, under another name. *)
Definition png_file_as_pdf : UploadedFile :=
  {| name := lit "copy of invoice.pdf"; type := lit "application/pdf"; data := [1] |}.

(** The reply of the end-to-end scenario, as an object and as minified
    JSON text. *)
Definition invoice_reply : dict :=
  [ (lit "summary", VStr (lit "Invoice for $100"));
    (lit "domain", VStr (lit "Finance"));
    (lit "origin", VStr (lit "US"));
    (lit "document_type", VStr (lit "Invoice"));
    (lit "erp_status", VStr (lit "READY"));
    (lit "transformed_data",
      VDict [ (lit "key_points", VList [VStr (lit "Invoice #42")]);
              (lit "entities", VDict [(lit "total", VStr (lit "100"))]);
              (lit "confidence", VFloat 0.92) ]) ].

Definition invoice_reply_text : pystr :=
  lit "{" ++ quoted "summary" ++ lit ":" ++ quoted "Invoice for $100"
  ++ lit "," ++ quoted "domain" ++ lit ":" ++ quoted "Finance"
  ++ lit "," ++ quoted "origin" ++ lit ":" ++ quoted "US"
  ++ lit "," ++ quoted "document_type" ++ lit ":" ++ quoted "Invoice"
  ++ lit "," ++ quoted "erp_status" ++ lit ":" ++ quoted "READY"
  ++ lit "," ++ quoted "transformed_data" ++ lit ":{"
  ++ quoted "key_points" ++ lit ":[" ++ quoted "Invoice #42" ++ lit "],"
  ++ quoted "entities" ++ lit ":{" ++ quoted "total" ++ lit ":" ++ quoted "100"
  ++ lit "}," ++ quoted "confidence" ++ lit ":0.92}}".

(** The shape of a converse reply whose first content block holds [t]. *)
Definition reply_with_text (t : value) : value :=
  VDict [ (lit "output",
            VDict [ (lit "message",
                      VDict [ (lit "role", VStr (lit "assistant"));
                              (lit "content", VList [VDict [(lit "text", t)]]) ]) ]) ].

(** A decoder that knows the scenario's reply and rejects everything else
    the way json.loads rejects prose. *)
Definition decode_error : exn :=
  mk_exn "JSONDecodeError" (lit "Expecting value: line 1 column 1 (char 0)").

Definition stub_json_loads (s : pystr) : result value :=
  if pystr_eqb s invoice_reply_text then Ok (VDict invoice_reply)
  else Raise decode_error.

Definition stub_env (pdf : PDF) (image : Image) (service : Request -> result value) : Env :=
  {| secrets := [];
     boto3_client := fun _ _ _ _ => Ok {| client_converse := service |};
     pdfplumber_open := fun _ => Ok pdf;
     Image_open := fun _ => Ok image;
     json_loads := stub_json_loads;
     float_repr := fun _ => lit "0.92" |}.

(** An endpoint that echoes the scenario's reply, one that answers in
    prose, and one that is unreachable. *)
Definition echo_service (_ : Request) : result value :=
  Ok (reply_with_text (VStr invoice_reply_text)).

Definition prose_service (_ : Request) : result value :=
  Ok (reply_with_text (VStr (lit "Sorry, I cannot process this."))).

Definition timeout_error : exn :=
  mk_exn "EndpointConnectionError" (lit "Could not connect to the endpoint URL").

Definition down_service (_ : Request) : result value := Raise timeout_error.

(** ** Further notions and scenarios *)

(** "\n".join(texts) *)
Fixpoint join_lines (texts : list pystr) : pystr :=
  match texts with
  | [] => []
  | [t] => t
  | t :: rest => t ++ [LF] ++ join_lines rest
  end.

(** A page text that counts for nothing once stripped: None, or a str of
    whitespace only (the empty str included). *)
Definition blank_text (o : option pystr) : bool :=
  match o with
  | None => true
  | Some t => forallb isspace t
  end.

(** The six keys the script reads from the parsed reply. *)
Definition schema_keys : list pystr :=
  [ lit "domain"; lit "origin"; lit "document_type"; lit "summary";
    lit "erp_status"; lit "transformed_data" ].

(** An environment given by what each library call does. *)
Definition env_of (open_pdf : result PDF) (open_image : result Image)
  (make_client : result Client) (loads : pystr -> result value) : Env :=
  {| secrets := [];
     boto3_client := fun _ _ _ _ => make_client;
     pdfplumber_open := fun _ => open_pdf;
     Image_open := fun _ => open_image;
     json_loads := loads;
     float_repr := fun _ => lit "0.92" |}.

(** Exceptions of the libraries, as the scenarios raise them. *)
Definition pdf_syntax_error : exn := mk_exn "PDFSyntaxError" (lit "No /Root object!").

Definition unidentified_image_error : exn :=
  mk_exn "UnidentifiedImageError" (lit "cannot identify image file").

Definition no_credentials_error : exn :=
  mk_exn "NoCredentialsError" (lit "Unable to locate credentials").

(** An upload whose declared type is neither a PDF nor an image. *)
Definition text_file : UploadedFile :=
  {| name := lit "notes.txt"; type := lit "text/plain"; data := [] |}.

(** A PDF of three pages: a blank one, a page of spaces and a form feed,
    and a page without text. *)
Definition whitespace_pdf : PDF :=
  {| pages := [ {| extract_text := Ok (Some []) |};
                {| extract_text := Ok (Some [32; 32; 12]) |};
                {| extract_text := Ok None |} ] |}.

(** A PDF of three pages with text on the first and the last. *)
Definition two_text_pdf : PDF :=
  {| pages := [ {| extract_text := Ok (Some (lit "Invoice #42")) |};
                {| extract_text := Ok None |};
                {| extract_text := Ok (Some (lit "Total $100")) |} ] |}.

(** A PDF whose second page cannot be read. *)
Definition damaged_pdf : PDF :=
  {| pages := [ {| extract_text := Ok (Some (lit "Invoice #42")) |};
                {| extract_text := Raise pdf_syntax_error |};
                {| extract_text := Ok (Some (lit "Total $100")) |} ] |}.

(** A decoder for which every text is the array [1, 2]. *)
Definition array_loads (_ : pystr) : result value := Ok (VList [VInt 1; VInt 2]).

(** A reply without the output key, and one whose content list is empty. *)
Definition reply_without_output : dict := [ (lit "stopReason", VStr (lit "end_turn")) ].

Definition reply_without_content : dict :=
  [ (lit "output",
      VDict [ (lit "message",
                VDict [ (lit "role", VStr (lit "assistant"));
                        (lit "content", VList []) ]) ]) ].

(** * Properties *)

(** Replaces the literals of the goal by their code points. *)
Ltac closed_literals :=
  repeat match goal with
         | |- context [encode_string (lit ?s)] =>
             let v := eval vm_compute in (encode_string (lit s)) in
             replace (encode_string (lit s)) with v by (vm_compute; reflexivity)
         | |- context [lit ?s] =>
             let v := eval vm_compute in (lit s) in
             replace (lit s) with v by (vm_compute; reflexivity)
         end.


(** ** Checks of the Python primitives *)

Example lit_ascii : lit "READY" = [82; 69; 65; 68; 89].
Proof. reflexivity. Qed.

Example lit_emoji : lit "✅⏳🚀é" = [0x2705; 0x23F3; 0x1F680; 0xE9].
Proof. reflexivity. Qed.

Example strip_both_ends : strip (lit "  a b " ++ [LF]) = lit "a b".
Proof. reflexivity. Qed.

Example int_repr_values :
  int_repr 10 = lit "10" /\ int_repr 0 = lit "0" /\ int_repr (-5) = lit "-5".
Proof. split; [|split]; vm_compute; reflexivity. Qed.

Example encode_string_escapes :
  encode_string ([113; QUOTE; BACKSLASH; LF; 0x7F; 0x1F; 0xE9; 0x1F680] ++ lit " ~")
  = [QUOTE; 113; BACKSLASH; QUOTE; BACKSLASH; BACKSLASH; BACKSLASH; 110]
    ++ [BACKSLASH] ++ lit "u007f" ++ [BACKSLASH] ++ lit "u001f"
    ++ [BACKSLASH] ++ lit "u00e9" ++ [BACKSLASH] ++ lit "ud83d"
    ++ [BACKSLASH] ++ lit "ude80 ~" ++ [QUOTE].
Proof. reflexivity. Qed.

Example dumps_small :
  json_dumps (fun _ => lit "0.5")
    (VDict [(lit "k", VList [VInt 1; VNone]); (lit "e", VDict [])]) 2
  = line "{" ++ lit "  " ++ quoted "k" ++ line ": [" ++ line "    1,"
    ++ line "    null" ++ line "  ]," ++ lit "  " ++ quoted "e" ++ line ": {}"
    ++ lit "}".
Proof. reflexivity. Qed.

Example subscript_errors :
  py_getitem (VDict []) (KStr "output") = Raise (KeyError (lit "'output'"))
  /\ py_getitem (VList []) (KInt 0) = Raise (IndexError (lit "list index out of range"))
  /\ py_getitem (VList [VInt 1; VInt 2]) (KInt (-1)) = Ok (VInt 2)
  /\ py_get (VList []) (lit "domain") VNone
     = Raise (AttributeError (lit "'list' object has no attribute 'get'")).
Proof. split; [|split; [|split]]; vm_compute; reflexivity. Qed.

(** ** The computation monad *)

Lemma bind_ret {A B : Type} (a : A) (k : A -> M B) : bind (ret a) k = k a.
Proof. unfold bind, ret. destruct (k a) as [t r]. reflexivity. Qed.

Lemma bind_halt {A B : Type} (t : list event) (h : halt) (k : A -> M B) :
  bind (t, inr h) k = (t, inr h).
Proof. reflexivity. Qed.

Lemma bind_value {A B : Type} (t : list event) (a : A) (k : A -> M B) :
  bind (t, inl a) k = (t ++ trace (k a), outcome (k a)).
Proof. unfold bind, trace, outcome. destruct (k a). reflexivity. Qed.

Lemma bind_emit {B : Type} (e : event) (k : unit -> M B) :
  bind (emit e) k = (e :: trace (k tt), outcome (k tt)).
Proof. unfold emit. rewrite bind_value. reflexivity. Qed.

Lemma trace_bind {A B : Type} (m : M A) (k : A -> M B) :
  trace (bind m k)
  = trace m ++ match outcome m with
               | inl a => trace (k a)
               | inr _ => []
               end.
Proof.
  destruct m as [t [a | h]].
  - rewrite bind_value. reflexivity.
  - simpl. symmetry. apply app_nil_r.
Qed.

Lemma outcome_bind {A B : Type} (m : M A) (k : A -> M B) :
  outcome (bind m k)
  = match outcome m with
    | inl a => outcome (k a)
    | inr h => inr h
    end.
Proof.
  destruct m as [t [a | h]].
  - rewrite bind_value. reflexivity.
  - reflexivity.
Qed.

Lemma M_eta {A : Type} (m : M A) : m = (trace m, outcome m).
Proof. destruct m. reflexivity. Qed.

Lemma bind_lift_ok {A B : Type} (a : A) (k : A -> M B) : bind (lift (Ok a)) k = k a.
Proof. apply bind_ret. Qed.

Lemma bind_lift_raise {A B : Type} (e : exn) (k : A -> M B) :
  bind (lift (Raise e)) k = raise e.
Proof. reflexivity. Qed.

(** ** Content extraction from a PDF *)

Lemma yielded_cons_text (c : char) (s : pystr) (texts : list (option pystr)) :
  yielded (Some (c :: s) :: texts) = (c :: s) :: yielded texts.
Proof. reflexivity. Qed.

Lemma yielded_cons_empty (texts : list (option pystr)) :
  yielded (Some [] :: texts) = yielded texts /\ yielded (None :: texts) = yielded texts.
Proof. split; reflexivity. Qed.

Lemma yielded_all_nonempty (texts : list pystr) :
  Forall (fun t => t <> []) texts -> yielded (map Some texts) = texts.
Proof.
  induction 1 as [| t ts Ht _ IH]; [reflexivity |].
  destruct t as [| c s]; [contradiction |].
  simpl map. rewrite yielded_cons_text, IH. reflexivity.
Qed.

(** The loop appends to its accumulator the yielded texts, each followed
    by a newline. *)
Lemma pdf_pages_loop_texts (ps : list Page) :
  forall (texts : list (option pystr)) (acc : pystr),
    map extract_text ps = map Ok texts ->
    pdf_pages_loop ps acc = ret (acc ++ newline_joined (yielded texts)).
Proof.
  induction ps as [| page rest IH]; intros texts acc Hmap.
  - destruct texts; [| discriminate]. simpl. rewrite app_nil_r. reflexivity.
  - destruct texts as [| o texts]; [discriminate |].
    simpl in Hmap. injection Hmap as Hpage Hrest.
    simpl pdf_pages_loop. rewrite Hpage, bind_lift_ok.
    destruct o as [[| c s] |].
    + rewrite (IH texts acc Hrest). reflexivity.
    + rewrite (IH texts _ Hrest), yielded_cons_text.
      unfold newline_joined. simpl flat_map. f_equal.
      rewrite <- app_assoc. simpl. rewrite <- app_assoc. reflexivity.
    + rewrite (IH texts acc Hrest). reflexivity.
Qed.

(** C1, as the code has it.  For every PDF that opens and whose pages
    give the texts [texts] (None, empty or not), extract_text_from_pdf
    returns the yielded texts, in page order and each followed by a
    newline, concatenated and then stripped of leading and of trailing
    whitespace.  Pages that gave None or the empty text are not among the
    yielded texts and contribute nothing. *)
Theorem extract_text_from_pdf_stripped_join
  (env : Env) (file : UploadedFile) (pdf : PDF) (texts : list (option pystr)) :
  pdfplumber_open env file = Ok pdf ->
  map extract_text (pages pdf) = map Ok texts ->
  extract_text_from_pdf env file = ret (strip (newline_joined (yielded texts))).
Proof.
  intros Hopen Hpages. unfold extract_text_from_pdf.
  rewrite Hopen, bind_lift_ok.
  rewrite (pdf_pages_loop_texts _ texts [] Hpages), bind_ret.
  reflexivity.
Qed.

Lemma extract_text_from_pdf_stripped_join_witness :
  extract_text_from_pdf (stub_env invoice_pdf white_png echo_service) invoice_file
  = ret (strip (newline_joined (yielded [Some (lit "Invoice #42, Total $100")]))).
Proof.
  apply (extract_text_from_pdf_stripped_join
           (stub_env invoice_pdf white_png echo_service) invoice_file invoice_pdf
           [Some (lit "Invoice #42, Total $100")]).
  - reflexivity.
  - reflexivity.
Defined.

(** C1, as stated, fails: with trailing whitespace alone trimmed, a page
    whose text is " Invoice #42" would give that text with its leading
    blank, but the code's strip() removes the blank as well. *)
Lemma extract_text_from_pdf_trims_leading_blank :
  extract_text_from_pdf (stub_env indented_pdf white_png echo_service) invoice_file
  = ret (lit "Invoice #42")
  /\ rstrip (newline_joined (yielded [Some (lit " Invoice #42")])) = lit " Invoice #42"
  /\ extract_text_from_pdf (stub_env indented_pdf white_png echo_service) invoice_file
     <> ret (rstrip (newline_joined (yielded [Some (lit " Invoice #42")]))).
Proof.
  split; [vm_compute; reflexivity |].
  split; [vm_compute; reflexivity |].
  vm_compute. discriminate.
Qed.

(** ** The inference invoker *)

Lemma seq_index_first {A : Type} (l : list A) :
  seq_index l 0 = match l with [] => None | x :: _ => Some x end.
Proof.
  destruct l as [| x l]; [reflexivity |].
  unfold seq_index. simpl List.length.
  replace (0 <? Z.of_nat (S (List.length l)))%Z with true by (symmetry; apply Z.ltb_lt; lia).
  reflexivity.
Qed.

(** Line 49 succeeds exactly on replies that have a first text segment,
    and then gives that segment. *)
Lemma reply_text_spec (response : value) :
  match first_text_segment response with
  | Some t => reply_text response = Ok t
  | None => exists e, reply_text response = Raise e
  end.
Proof.
  unfold reply_text, first_text_segment.
  repeat (simpl; eauto;
          match goal with
          | |- context [match dict_lookup ?d ?k with _ => _ end] =>
              destruct (dict_lookup d k)
          | |- context [seq_index ?l 0%Z] => rewrite (seq_index_first l)
          | |- context [match ?v with VNone => _ | _ => _ end] =>
              is_var v; destruct v
          | |- context [match ?l with [] => _ | _ => _ end] =>
              is_var l; destruct l
          end).
Qed.

(** converse, case by case: one request is sent; the call or the reading
    of its reply may fail, and either failure is wrapped. *)
Lemma converse_cases (brt : Client) (model_id user_message : pystr) :
  converse brt model_id user_message
  = ([brt_converse (converse_request model_id user_message)],
     match client_converse brt (converse_request model_id user_message) with
     | Ok response =>
         match reply_text response with
         | Ok t => inl t
         | Raise e => inr (Exc (invocation_failed e))
         end
     | Raise e => inr (Exc (invocation_failed e))
     end).
Proof.
  unfold converse. cbv zeta. rewrite bind_emit.
  destruct (client_converse brt (converse_request model_id user_message))
    as [response | e]; simpl.
  - destruct (reply_text response) as [t | e]; reflexivity.
  - reflexivity.
Qed.

Lemma converse_trace (brt : Client) (model_id user_message : pystr) :
  trace (converse brt model_id user_message)
  = [brt_converse (converse_request model_id user_message)].
Proof. rewrite converse_cases. reflexivity. Qed.

(** converse returns a value or raises its own RuntimeError; it never
    stops the script and lets no other exception through. *)
Lemma converse_outcome (brt : Client) (model_id user_message : pystr) :
  (exists t, outcome (converse brt model_id user_message) = inl t)
  \/ (exists e, outcome (converse brt model_id user_message)
                = inr (Exc (invocation_failed e))).
Proof.
  rewrite converse_cases. unfold outcome, snd.
  destruct (client_converse brt (converse_request model_id user_message))
    as [response | e]; [| right; eauto].
  destruct (reply_text response) as [t | e]; [left | right]; eauto.
Qed.

(** C6.  Whatever exception the remote call raises, converse raises a
    RuntimeError whose message is "Bedrock invocation failed: " followed by
    the text of the cause.  The class of the cause is lost: two causes
    with the same text, raised by any two clients, give the caller the
    same result. *)
Theorem converse_wraps_every_exception
  (brt : Client) (model_id user_message : pystr) (e : exn) :
  client_converse brt (converse_request model_id user_message) = Raise e ->
  converse brt model_id user_message
  = ([brt_converse (converse_request model_id user_message)],
     inr (Exc (mk_exn "RuntimeError"
                 (lit "Bedrock invocation failed: " ++ exn_str e))))
  /\ (forall (brt' : Client) (e' : exn),
        client_converse brt' (converse_request model_id user_message) = Raise e' ->
        exn_str e' = exn_str e ->
        converse brt' model_id user_message = converse brt model_id user_message).
Proof.
  intros Hraise. split.
  - rewrite converse_cases, Hraise. reflexivity.
  - intros brt' e' Hraise' Hstr.
    rewrite !converse_cases, Hraise, Hraise'.
    unfold invocation_failed. rewrite Hstr. reflexivity.
Qed.

Lemma converse_wraps_every_exception_witness :
  converse {| client_converse := down_service |} MODEL_ID (lit "hello")
  = ([brt_converse (converse_request MODEL_ID (lit "hello"))],
     inr (Exc (mk_exn "RuntimeError"
                 (lit "Bedrock invocation failed: " ++ exn_str timeout_error))))
  /\ (forall (brt' : Client) (e' : exn),
        client_converse brt' (converse_request MODEL_ID (lit "hello")) = Raise e' ->
        exn_str e' = exn_str timeout_error ->
        converse brt' MODEL_ID (lit "hello")
        = converse {| client_converse := down_service |} MODEL_ID (lit "hello")).
Proof.
  apply (converse_wraps_every_exception
           {| client_converse := down_service |} MODEL_ID (lit "hello") timeout_error).
  reflexivity.
Defined.

(** C7.  For every prompt converse sends exactly one request; its messages
    are the single user turn holding the prompt, its decoding parameters
    are maxTokens 8192, temperature 0.5 and topP 0.9; and when the call
    returns a reply, converse returns a value exactly when the reply has a
    first text segment, and the value is that segment. *)
Theorem converse_one_request_first_text
  (brt : Client) (model_id prompt : pystr) :
  trace (converse brt model_id prompt) = [brt_converse (converse_request model_id prompt)]
  /\ requests (trace (converse brt model_id prompt)) = [converse_request model_id prompt]
  /\ modelId (converse_request model_id prompt) = model_id
  /\ messages (converse_request model_id prompt)
     = [ {| role := lit "user"; content := [ {| text := prompt |} ] |} ]
  /\ maxTokens (inferenceConfig (converse_request model_id prompt)) = 8192%Z
  /\ temperature (inferenceConfig (converse_request model_id prompt)) = 0.5%float
  /\ topP (inferenceConfig (converse_request model_id prompt)) = 0.9%float
  /\ (forall response : value,
        client_converse brt (converse_request model_id prompt) = Ok response ->
        forall t : value,
          outcome (converse brt model_id prompt) = inl t
          <-> first_text_segment response = Some t).
Proof.
  rewrite converse_trace.
  repeat (split; [reflexivity |]).
  intros response Hreply t.
  rewrite converse_cases, Hreply. unfold outcome, snd.
  pose proof (reply_text_spec response) as Hspec.
  destruct (first_text_segment response) as [t' |].
  - rewrite Hspec. split; intros H; inversion H; reflexivity.
  - destruct Hspec as [e He]. rewrite He. split; intros H; discriminate H.
Qed.

Lemma converse_one_request_first_text_witness :
  outcome (converse {| client_converse := echo_service |} MODEL_ID (lit "hello"))
  = inl (VStr invoice_reply_text).
Proof.
  apply (proj2 (proj2 (proj2 (proj2 (proj2 (proj2 (proj2
           (converse_one_request_first_text
              {| client_converse := echo_service |} MODEL_ID (lit "hello"))))))))
           (reply_with_text (VStr invoice_reply_text)) eq_refl (VStr invoice_reply_text)).
  vm_compute. reflexivity.
Defined.

(** ** The response interpreter *)

Lemma pystr_eqb_eq (a b : pystr) : pystr_eqb a b = true <-> a = b.
Proof.
  revert b. induction a as [| x a IH]; intros [| y b]; simpl;
    try (split; [discriminate | discriminate]); [tauto |].
  rewrite andb_true_iff, N.eqb_eq, IH.
  split; [intros [-> ->]; reflexivity | intros H; injection H; auto].
Qed.

Lemma value_eq_str_true (v : value) (s : pystr) :
  value_eq_str v s = true <-> v = VStr s.
Proof.
  destruct v; simpl; try (split; [discriminate | discriminate]).
  rewrite pystr_eqb_eq. split; [intros -> | intros H; injection H]; auto.
Qed.

Lemma dict_get_lookup (d : dict) (key : pystr) (default v : value) :
  dict_lookup d key = Some v -> dict_get d key default = v.
Proof. unfold dict_get. intros ->. reflexivity. Qed.

(** On a dict the three sections show exactly the interpreted result. *)
Lemma present_dict (env : Env) (extracted_text : pystr) (d : dict) :
  present env extracted_text (VDict d)
  = (rendering env extracted_text (interpreted d), inl tt).
Proof. reflexivity. Qed.

(** A reply that is not a dict has no get method: the first lookup raises
    and nothing of the result is shown. *)
Lemma present_not_dict (env : Env) (extracted_text : pystr) (parsed : value) :
  (forall d, parsed <> VDict d) ->
  exists e, present env extracted_text parsed
            = ([st_subheader "📌 Document Summary"; st_columns 3], inr (Exc e)).
Proof.
  intros Hnot. destruct parsed; try (eexists; reflexivity).
  exfalso. eapply Hnot. reflexivity.
Qed.

(** C2.  When the response text parses to a JSON object that has all six
    keys, the six interpreted fields are the six values of the object,
    unchanged, and they are what the script shows. *)
Theorem interpreter_roundtrip
  (env : Env) (extracted_text response : pystr) (d : dict)
  (v_summary v_domain v_origin v_type v_erp v_data : value) :
  json_loads env response = Ok (VDict d) ->
  dict_lookup d (lit "summary") = Some v_summary ->
  dict_lookup d (lit "domain") = Some v_domain ->
  dict_lookup d (lit "origin") = Some v_origin ->
  dict_lookup d (lit "document_type") = Some v_type ->
  dict_lookup d (lit "erp_status") = Some v_erp ->
  dict_lookup d (lit "transformed_data") = Some v_data ->
  py_json_loads env (VStr response) = Ok (VDict d)
  /\ interpreted d
     = {| summary := v_summary; domain := v_domain; origin := v_origin;
          document_type := v_type; erp_status := v_erp;
          transformed_data := v_data |}
  /\ present env extracted_text (VDict d)
     = (rendering env extracted_text
          {| summary := v_summary; domain := v_domain; origin := v_origin;
             document_type := v_type; erp_status := v_erp;
             transformed_data := v_data |},
        inl tt).
Proof.
  intros Hloads Hs Hd Ho Ht He Htd.
  assert (Hint : interpreted d
                 = {| summary := v_summary; domain := v_domain; origin := v_origin;
                      document_type := v_type; erp_status := v_erp;
                      transformed_data := v_data |}).
  { unfold interpreted.
    rewrite (dict_get_lookup _ _ _ _ Hs), (dict_get_lookup _ _ _ _ Hd),
      (dict_get_lookup _ _ _ _ Ho), (dict_get_lookup _ _ _ _ Ht),
      (dict_get_lookup _ _ _ _ He), (dict_get_lookup _ _ _ _ Htd).
    reflexivity. }
  split; [| split].
  - exact Hloads.
  - exact Hint.
  - rewrite present_dict, Hint. reflexivity.
Qed.

Lemma interpreter_roundtrip_witness :
  py_json_loads (stub_env invoice_pdf white_png echo_service) (VStr invoice_reply_text)
  = Ok (VDict invoice_reply)
  /\ interpreted invoice_reply
     = {| summary := VStr (lit "Invoice for $100");
          domain := VStr (lit "Finance");
          origin := VStr (lit "US");
          document_type := VStr (lit "Invoice");
          erp_status := VStr (lit "READY");
          transformed_data :=
            VDict [ (lit "key_points", VList [VStr (lit "Invoice #42")]);
                    (lit "entities", VDict [(lit "total", VStr (lit "100"))]);
                    (lit "confidence", VFloat 0.92) ] |}
  /\ present (stub_env invoice_pdf white_png echo_service)
       (lit "Invoice #42, Total $100") (VDict invoice_reply)
     = (rendering (stub_env invoice_pdf white_png echo_service)
          (lit "Invoice #42, Total $100")
          {| summary := VStr (lit "Invoice for $100");
             domain := VStr (lit "Finance");
             origin := VStr (lit "US");
             document_type := VStr (lit "Invoice");
             erp_status := VStr (lit "READY");
             transformed_data :=
               VDict [ (lit "key_points", VList [VStr (lit "Invoice #42")]);
                       (lit "entities", VDict [(lit "total", VStr (lit "100"))]);
                       (lit "confidence", VFloat 0.92) ] |},
        inl tt).
Proof.
  apply (interpreter_roundtrip (stub_env invoice_pdf white_png echo_service)
           (lit "Invoice #42, Total $100") invoice_reply_text invoice_reply);
    vm_compute; reflexivity.
Defined.

(** C3, as the code has it.  Each of the six fields is the value under
    its own key when the key is present, and otherwise its own default:
    "No summary available" for summary, "Unknown" for domain, origin and
    document_type, "NOT_READY" for erp_status and the empty dict for
    transformed_data.  No field depends on another key, and the fields so
    obtained are what the script shows. *)
Theorem interpreter_defaults (env : Env) (extracted_text : pystr) (d : dict) :
  summary (interpreted d)
  = match dict_lookup d (lit "summary") with
    | Some v => v
    | None => VStr (lit "No summary available")
    end
  /\ domain (interpreted d)
     = match dict_lookup d (lit "domain") with
       | Some v => v
       | None => VStr (lit "Unknown")
       end
  /\ origin (interpreted d)
     = match dict_lookup d (lit "origin") with
       | Some v => v
       | None => VStr (lit "Unknown")
       end
  /\ document_type (interpreted d)
     = match dict_lookup d (lit "document_type") with
       | Some v => v
       | None => VStr (lit "Unknown")
       end
  /\ erp_status (interpreted d)
     = match dict_lookup d (lit "erp_status") with
       | Some v => v
       | None => VStr (lit "NOT_READY")
       end
  /\ transformed_data (interpreted d)
     = match dict_lookup d (lit "transformed_data") with
       | Some v => v
       | None => VDict []
       end
  /\ trace (present env extracted_text (VDict d))
     = rendering env extracted_text (interpreted d).
Proof.
  repeat split.
Qed.

(** C3, as stated, fails on summary: in a parsed object that has no
    summary key the summary shown is "No summary available", not
    "Unknown", while the absent origin of the same object does become
    "Unknown". *)
Lemma interpreter_summary_default_is_not_unknown :
  dict_lookup [(lit "domain", VStr (lit "Finance"))] (lit "summary") = None
  /\ summary (interpreted [(lit "domain", VStr (lit "Finance"))])
     = VStr (lit "No summary available")
  /\ summary (interpreted [(lit "domain", VStr (lit "Finance"))])
     <> VStr (lit "Unknown")
  /\ origin (interpreted [(lit "domain", VStr (lit "Finance"))])
     = VStr (lit "Unknown").
Proof.
  split; [vm_compute; reflexivity |].
  split; [vm_compute; reflexivity |].
  split; [vm_compute; discriminate |].
  vm_compute; reflexivity.
Qed.

(** ** The ERP decision *)

Lemma erp_branch_ready (v : value) :
  erp_branch v = ready_path <-> v = VStr (lit "READY").
Proof.
  unfold erp_branch, ready_path. rewrite <- value_eq_str_true.
  destruct (value_eq_str v (lit "READY")); split; intros H;
    reflexivity || discriminate H.
Qed.

Lemma erp_branch_manual_review (v : value) :
  erp_branch v = manual_review_path <-> v <> VStr (lit "READY").
Proof.
  unfold erp_branch, manual_review_path.
  destruct (value_eq_str v (lit "READY")) eqn:Heq.
  - apply value_eq_str_true in Heq.
    split; [intros H; discriminate H | intros H; contradiction].
  - split; [| reflexivity].
    intros _ Hv. apply value_eq_str_true in Hv. congruence.
Qed.

(** C10.  The ready presentation is chosen exactly when the interpreted
    erp_status is the str "READY", and the manual-review presentation for
    every other value; an object without the key gets "NOT_READY" and
    with it the manual-review presentation.  The chosen presentation is
    the second event of the ERP section of the run. *)
Theorem erp_ready_iff_status_is_READY (d : dict) :
  (erp_branch (erp_status (interpreted d)) = ready_path
   <-> erp_status (interpreted d) = VStr (lit "READY"))
  /\ (erp_branch (erp_status (interpreted d)) = manual_review_path
      <-> erp_status (interpreted d) <> VStr (lit "READY"))
  /\ ready_path <> manual_review_path
  /\ (dict_lookup d (lit "erp_status") = None ->
      erp_status (interpreted d) = VStr (lit "NOT_READY")
      /\ erp_branch (erp_status (interpreted d)) = manual_review_path)
  /\ erp_section (VDict d)
     = ([ st_subheader "⚙️ ERP Readiness";
          erp_branch (erp_status (interpreted d));
          st_columns 2;
          st_button "🚀 Send to ERP";
          st_button "📝 Mark for Manual Review" ],
        inl tt).
Proof.
  split; [apply erp_branch_ready |].
  split; [apply erp_branch_manual_review |].
  split; [discriminate |].
  split; [| reflexivity].
  intros Hnone.
  assert (Hdef : erp_status (interpreted d) = VStr (lit "NOT_READY")).
  { unfold interpreted, dict_get. simpl. rewrite Hnone. reflexivity. }
  split; [exact Hdef |].
  rewrite Hdef. apply erp_branch_manual_review.
  vm_compute. discriminate.
Qed.

Lemma erp_ready_iff_status_is_READY_witness :
  erp_branch (erp_status (interpreted invoice_reply)) = ready_path
  /\ erp_branch (erp_status (interpreted [(lit "domain", VStr (lit "Finance"))]))
     = manual_review_path.
Proof.
  split.
  - apply (proj1 (erp_ready_iff_status_is_READY invoice_reply)).
    vm_compute. reflexivity.
  - apply (proj1 (proj2 (proj2 (proj2
             (erp_ready_iff_status_is_READY [(lit "domain", VStr (lit "Finance"))]))))).
    vm_compute. reflexivity.
Defined.

(** ** Content extraction from an image *)

Lemma lit_image_prefix : lit "image/" = [105; 109; 97; 103; 101; 47].
Proof. vm_compute. reflexivity. Qed.

Lemma lit_pdf_type :
  lit "application/pdf"
  = [97; 112; 112; 108; 105; 99; 97; 116; 105; 111; 110; 47; 112; 100; 102].
Proof. vm_compute. reflexivity. Qed.

(** A media type that starts with image/ is not application/pdf. *)
Lemma image_type_is_not_pdf (t : pystr) :
  startswith t (lit "image/") = true -> pystr_eqb t (lit "application/pdf") = false.
Proof.
  rewrite lit_image_prefix, lit_pdf_type.
  destruct t as [| c t]; [discriminate |].
  simpl. destruct (N.eqb_spec c 105) as [-> | _]; [| discriminate].
  reflexivity.
Qed.

Lemma image_record_keys (image : Image) :
  dict_keys (image_record image)
  = [lit "document_type"; lit "format"; lit "mode"; lit "width"; lit "height"].
Proof. reflexivity. Qed.

Lemma image_record_ignores_pixels (image : Image) (px : list N) :
  image_record (with_pixels image px) = image_record image.
Proof. reflexivity. Qed.

(** The serialized record, written out. *)
Lemma image_record_text (float_repr : float -> pystr) (image : Image) :
  json_dumps float_repr (VDict (image_record image)) 2
  = line "{"
    ++ lit "  " ++ quoted "document_type" ++ lit ": " ++ quoted "Image" ++ line ","
    ++ lit "  " ++ quoted "format" ++ lit ": "
       ++ match format image with
          | Some f => encode_string f
          | None => lit "null"
          end ++ line ","
    ++ lit "  " ++ quoted "mode" ++ lit ": " ++ encode_string (mode image) ++ line ","
    ++ lit "  " ++ quoted "width" ++ lit ": " ++ int_repr (width image) ++ line ","
    ++ lit "  " ++ quoted "height" ++ lit ": " ++ int_repr (height image) ++ line ""
    ++ lit "}".
Proof.
  unfold json_dumps, image_record, line, quoted.
  destruct image as [[f |] m w h px]; cbn [format mode width height dumps_at];
    unfold newline_indent; cbn [Nat.mul Nat.add repeat];
    closed_literals; simpl; repeat (rewrite <- app_assoc; simpl); reflexivity.
Qed.

(** The serialization of a dict is never the empty str. *)
Lemma dumps_dict_truthy (float_repr : float -> pystr) (items : dict) (indent : nat) :
  str_truthy (json_dumps float_repr (VDict items) indent) = true.
Proof.
  destruct items as [| [k v] items]; [vm_compute; reflexivity |].
  unfold json_dumps. simpl dumps_at.
  replace (lit "{") with [123] by (vm_compute; reflexivity).
  reflexivity.
Qed.

(** On the image path the extracted content is the serialized record, and
    the guard against empty content lets it through. *)
Lemma extract_image (env : Env) (file : UploadedFile) (image : Image) :
  startswith (type file) (lit "image/") = true ->
  Image_open env file = Ok image ->
  extract_by_type env file
  = ret (json_dumps (float_repr env) (VDict (image_record image)) 2)
  /\ extract env file
     = ret (json_dumps (float_repr env) (VDict (image_record image)) 2).
Proof.
  intros Htype Hopen.
  assert (Hby : extract_by_type env file
                = ret (json_dumps (float_repr env) (VDict (image_record image)) 2)).
  { unfold extract_by_type, process_image.
    rewrite (image_type_is_not_pdf _ Htype), Htype, Hopen.
    rewrite bind_lift_ok, !bind_ret. reflexivity. }
  split; [exact Hby |].
  unfold extract. rewrite Hby, bind_ret, dumps_dict_truthy. reflexivity.
Qed.

(** C4, as the code has it.  For every upload declared as an image that
    decodes, the extracted content is the indented JSON text of a record
    with exactly five keys, in this order: document_type (always
    "Image"), format, mode, width and height.  The record and its text are
    the same for any other pixel data. *)
Theorem image_extraction_is_five_key_record
  (env : Env) (file : UploadedFile) (image : Image) :
  startswith (type file) (lit "image/") = true ->
  Image_open env file = Ok image ->
  extract env file = ret (json_dumps (float_repr env) (VDict (image_record image)) 2)
  /\ dict_keys (image_record image)
     = [lit "document_type"; lit "format"; lit "mode"; lit "width"; lit "height"]
  /\ dict_lookup (image_record image) (lit "document_type") = Some (VStr (lit "Image"))
  /\ json_dumps (float_repr env) (VDict (image_record image)) 2
     = line "{"
       ++ lit "  " ++ quoted "document_type" ++ lit ": " ++ quoted "Image" ++ line ","
       ++ lit "  " ++ quoted "format" ++ lit ": "
          ++ match format image with
             | Some f => encode_string f
             | None => lit "null"
             end ++ line ","
       ++ lit "  " ++ quoted "mode" ++ lit ": " ++ encode_string (mode image) ++ line ","
       ++ lit "  " ++ quoted "width" ++ lit ": " ++ int_repr (width image) ++ line ","
       ++ lit "  " ++ quoted "height" ++ lit ": " ++ int_repr (height image) ++ line ""
       ++ lit "}"
  /\ (forall px : list N,
        json_dumps (float_repr env) (VDict (image_record (with_pixels image px))) 2
        = json_dumps (float_repr env) (VDict (image_record image)) 2).
Proof.
  intros Htype Hopen.
  split; [apply (extract_image env file image Htype Hopen) |].
  split; [apply image_record_keys |].
  split; [vm_compute; reflexivity |].
  split; [apply image_record_text |].
  intros px. rewrite image_record_ignores_pixels. reflexivity.
Qed.

Lemma image_extraction_is_five_key_record_witness :
  extract (stub_env invoice_pdf white_png echo_service) png_file
  = ret (line "{"
         ++ lit "  " ++ quoted "document_type" ++ lit ": " ++ quoted "Image" ++ line ","
         ++ lit "  " ++ quoted "format" ++ lit ": " ++ quoted "PNG" ++ line ","
         ++ lit "  " ++ quoted "mode" ++ lit ": " ++ quoted "RGB" ++ line ","
         ++ lit "  " ++ quoted "width" ++ line ": 10,"
         ++ lit "  " ++ quoted "height" ++ line ": 10"
         ++ lit "}").
Proof.
  rewrite (proj1 (image_extraction_is_five_key_record
                    (stub_env invoice_pdf white_png echo_service) png_file white_png
                    eq_refl eq_refl)).
  vm_compute. reflexivity.
Defined.

(** C4, as stated, fails: the record of the 10 by 10 white PNG has the key
    document_type, which is none of the four metadata keys, so its keys
    are not exactly those four. *)
Lemma image_record_has_a_fifth_key :
  dict_keys (image_record white_png)
  = [lit "document_type"; lit "format"; lit "mode"; lit "width"; lit "height"]
  /\ In (lit "document_type") (dict_keys (image_record white_png))
  /\ ~ In (lit "document_type") metadata_keys
  /\ ~ (forall k : pystr,
          In k (dict_keys (image_record white_png)) <-> In k metadata_keys).
Proof.
  assert (Hnot : ~ In (lit "document_type") metadata_keys).
  { vm_compute. intros H.
    repeat (destruct H as [H | H]; [discriminate H |]). exact H. }
  split; [reflexivity |].
  split; [left; reflexivity |].
  split; [exact Hnot |].
  intros Hall. apply Hnot. apply Hall. left. reflexivity.
Qed.

(** ** The run as a whole *)

Lemma requests_app (a b : list event) : requests (a ++ b) = requests a ++ requests b.
Proof. unfold requests. apply flat_map_app. Qed.

Lemma pdf_pages_loop_quiet (ps : list Page) :
  forall acc : pystr, trace (pdf_pages_loop ps acc) = [].
Proof.
  induction ps as [| page rest IH]; intros acc; [reflexivity |].
  simpl pdf_pages_loop. destruct (extract_text page) as [[[| c s] |] | e].
  - rewrite bind_lift_ok. apply IH.
  - rewrite bind_lift_ok. apply IH.
  - rewrite bind_lift_ok. apply IH.
  - reflexivity.
Qed.

(** Extraction by type shows nothing, except on the unsupported type,
    where it shows the error and stops. *)
Lemma extract_by_type_quiet (env : Env) (file : UploadedFile) :
  trace (extract_by_type env file) = []
  \/ extract_by_type env file = ([st_error "Unsupported file type"], inr Stop).
Proof.
  unfold extract_by_type.
  destruct (pystr_eqb (type file) (lit "application/pdf")).
  - left. unfold extract_text_from_pdf.
    destruct (pdfplumber_open env file) as [pdf | e]; [| reflexivity].
    rewrite bind_lift_ok, trace_bind, pdf_pages_loop_quiet.
    destruct (outcome (pdf_pages_loop (pages pdf) [])); reflexivity.
  - destruct (startswith (type file) (lit "image/")); [left | right; reflexivity].
    unfold process_image.
    destruct (Image_open env file) as [image | e]; reflexivity.
Qed.

Lemma extract_by_type_value (env : Env) (file : UploadedFile)
  (t : list event) (text : pystr) :
  extract_by_type env file = (t, inl text) -> t = [].
Proof.
  intros H. destruct (extract_by_type_quiet env file) as [Hq | Hq].
  - rewrite H in Hq. exact Hq.
  - rewrite H in Hq. discriminate Hq.
Qed.

(** The try statement of lines 150-158, case by case. *)
Lemma invoke_and_parse_cases (env : Env) (prompt : pystr) :
  invoke_and_parse env prompt
  = match boto3_client env "bedrock-runtime"
            (AWS_REGION env) (AWS_ACCESS_KEY env) (AWS_SECRET_KEY env) with
    | Raise e => (failure_report e (VStr []), inr Stop)
    | Ok brt =>
        match outcome (converse brt MODEL_ID prompt) with
        | inl llm_response =>
            match py_json_loads env llm_response with
            | Ok parsed =>
                ([brt_converse (converse_request MODEL_ID prompt)], inl parsed)
            | Raise e =>
                (brt_converse (converse_request MODEL_ID prompt)
                 :: failure_report e llm_response, inr Stop)
            end
        | inr (Exc e) =>
            (brt_converse (converse_request MODEL_ID prompt)
             :: failure_report e (VStr []), inr Stop)
        | inr Stop => ([brt_converse (converse_request MODEL_ID prompt)], inr Stop)
        end
    end.
Proof.
  unfold invoke_and_parse, get_bedrock_client.
  destruct (boto3_client env "bedrock-runtime"
              (AWS_REGION env) (AWS_ACCESS_KEY env) (AWS_SECRET_KEY env))
    as [brt | e]; [| reflexivity].
  rewrite bind_lift_ok.
  pose proof (converse_trace brt MODEL_ID prompt) as Ht.
  destruct (converse brt MODEL_ID prompt) as [t [llm_response | [| e]]];
    simpl in Ht; subst t; simpl.
  - destruct (py_json_loads env llm_response); reflexivity.
  - reflexivity.
  - reflexivity.
Qed.

Lemma invoke_and_parse_requests (env : Env) (prompt : pystr) :
  requests (trace (invoke_and_parse env prompt)) = []
  \/ requests (trace (invoke_and_parse env prompt)) = [converse_request MODEL_ID prompt].
Proof.
  rewrite invoke_and_parse_cases.
  destruct (boto3_client env "bedrock-runtime"
              (AWS_REGION env) (AWS_ACCESS_KEY env) (AWS_SECRET_KEY env))
    as [brt | e]; [| left; reflexivity].
  right.
  destruct (outcome (converse brt MODEL_ID prompt)) as [llm_response | [| e]];
    [destruct (py_json_loads env llm_response) | |]; reflexivity.
Qed.

Lemma invoke_and_parse_no_empty_error (env : Env) (prompt : pystr) :
  ~ In empty_content_error (trace (invoke_and_parse env prompt)).
Proof.
  rewrite invoke_and_parse_cases. unfold empty_content_error.
  destruct (boto3_client env "bedrock-runtime"
              (AWS_REGION env) (AWS_ACCESS_KEY env) (AWS_SECRET_KEY env))
    as [brt | e];
    [destruct (outcome (converse brt MODEL_ID prompt)) as [llm_response | [| e]];
     [destruct (py_json_loads env llm_response) | |] |];
    simpl; intros H;
    repeat (destruct H as [H | H]; [discriminate H |]); exact H.
Qed.

Lemma present_requests (env : Env) (extracted_text : pystr) (parsed : value) :
  requests (trace (present env extracted_text parsed)) = [].
Proof.
  destruct parsed; try reflexivity.
  rewrite present_dict. unfold rendering, erp_branch. simpl.
  destruct (value_eq_str _ _); reflexivity.
Qed.

Lemma present_no_empty_error (env : Env) (extracted_text : pystr) (parsed : value) :
  ~ In empty_content_error (trace (present env extracted_text parsed)).
Proof.
  unfold empty_content_error.
  destruct parsed;
    try (simpl; intros H;
         repeat (destruct H as [H | H]; [discriminate H |]); exact H).
  rewrite present_dict. unfold rendering, erp_branch. simpl.
  destruct (value_eq_str _ _); intros H;
    repeat (destruct H as [H | H]; [discriminate H |]); exact H.
Qed.

(** The run after a successful extraction. *)
Lemma process_document_after_extract (env : Env) (file : UploadedFile) (text : pystr) :
  extract env file = ret text ->
  process_document env file
  = bind (emit (st_spinner "Processing document using CTD's Gen AI..."))
      (fun _ => bind (invoke_and_parse env (build_prompt text))
                  (fun parsed => present env text parsed)).
Proof.
  intros Hext. unfold process_document. rewrite Hext, bind_ret. reflexivity.
Qed.

Lemma process_document_requests (env : Env) (file : UploadedFile) (text : pystr) :
  extract env file = ret text ->
  requests (trace (process_document env file))
  = requests (trace (invoke_and_parse env (build_prompt text))).
Proof.
  intros Hext. rewrite (process_document_after_extract env file text Hext).
  rewrite bind_emit. unfold trace at 1. cbn [fst].
  change (requests (?e :: ?t)) with (requests [e] ++ requests t).
  cbn [requests flat_map app].
  rewrite trace_bind, requests_app.
  destruct (outcome (invoke_and_parse env (build_prompt text))) as [parsed | h].
  - rewrite present_requests. apply app_nil_r.
  - apply app_nil_r.
Qed.

(** C5.  When the text that converse returned does not parse, the run
    shows the failure, the text of the parsing error and then the raw
    response text itself, unchanged, and stops: nothing of an interpreted
    result is shown. *)
Theorem malformed_response_is_surfaced
  (env : Env) (file : UploadedFile) (text response : pystr) (brt : Client) (e : exn) :
  extract env file = ret text ->
  boto3_client env "bedrock-runtime"
    (AWS_REGION env) (AWS_ACCESS_KEY env) (AWS_SECRET_KEY env) = Ok brt ->
  outcome (converse brt MODEL_ID (build_prompt text)) = inl (VStr response) ->
  json_loads env response = Raise e ->
  process_document env file
  = ([ st_spinner "Processing document using CTD's Gen AI...";
       brt_converse (converse_request MODEL_ID (build_prompt text));
       st_error "Failed to process document";
       st_text (VStr (exn_str e));
       st_text (VStr response) ],
     inr Stop).
Proof.
  intros Hext Hclient Hreply Hloads.
  rewrite (process_document_after_extract env file text Hext).
  rewrite invoke_and_parse_cases, Hclient, Hreply.
  unfold py_json_loads. rewrite Hloads. reflexivity.
Qed.

Lemma malformed_response_is_surfaced_witness :
  process_document (stub_env invoice_pdf white_png prose_service) invoice_file
  = ([ st_spinner "Processing document using CTD's Gen AI...";
       brt_converse (converse_request MODEL_ID
                       (build_prompt (lit "Invoice #42, Total $100")));
       st_error "Failed to process document";
       st_text (VStr (exn_str decode_error));
       st_text (VStr (lit "Sorry, I cannot process this.")) ],
     inr Stop).
Proof.
  apply (malformed_response_is_surfaced
           (stub_env invoice_pdf white_png prose_service) invoice_file
           (lit "Invoice #42, Total $100") (lit "Sorry, I cannot process this.")
           {| client_converse := prose_service |} decode_error);
    vm_compute; reflexivity.
Defined.

(** C8.  When extraction by type yields the empty str, the run shows the
    empty-content error and stops right after the spinner: no request is
    sent and nothing else happens.  On the image path the extracted text
    is never empty, and no run shows the empty-content error. *)
Theorem empty_extraction_aborts (env : Env) (file : UploadedFile) :
  (forall t : list event,
     extract_by_type env file = (t, inl []) ->
     process_document env file
     = ([st_spinner "Processing document using CTD's Gen AI..."; empty_content_error],
        inr Stop)
     /\ requests (trace (process_document env file)) = [])
  /\ (startswith (type file) (lit "image/") = true ->
      (forall (t : list event) (text : pystr),
         extract_by_type env file = (t, inl text) -> text <> [])
      /\ ~ In empty_content_error (trace (process_document env file))).
Proof.
  split.
  - intros t Hby.
    pose proof (extract_by_type_value env file t [] Hby) as ->.
    assert (Hrun : process_document env file
                   = ([st_spinner "Processing document using CTD's Gen AI...";
                       empty_content_error], inr Stop)).
    { unfold process_document, extract. rewrite Hby. reflexivity. }
    rewrite Hrun. split; reflexivity.
  - intros Htype.
    destruct (Image_open env file) as [image | e] eqn:Hopen.
    + destruct (extract_image env file image Htype Hopen) as [Hby Hext].
      split.
      * intros t text H Hempty. rewrite Hby in H.
        injection H as _ Htext. subst text.
        pose proof (dumps_dict_truthy (float_repr env) (image_record image) 2) as Htruthy.
        rewrite Hempty in Htruthy. discriminate Htruthy.
      * rewrite (process_document_after_extract env file _ Hext), bind_emit.
        unfold trace at 1. cbn [fst]. intros [H | H]; [discriminate H |].
        rewrite trace_bind in H. apply in_app_or in H. destruct H as [H | H].
        -- exact (invoke_and_parse_no_empty_error env _ H).
        -- destruct (outcome (invoke_and_parse env _)) as [parsed | h];
             [exact (present_no_empty_error env _ parsed H) | exact H].
    + assert (Hby : extract_by_type env file = raise e).
      { unfold extract_by_type, process_image.
        rewrite (image_type_is_not_pdf _ Htype), Htype, Hopen. reflexivity. }
      split.
      * intros t text H. rewrite Hby in H. discriminate H.
      * unfold process_document, extract. rewrite Hby. simpl.
        intros [H | H]; [discriminate H | exact H].
Qed.

Lemma empty_extraction_aborts_witness :
  (process_document (stub_env blank_pdf white_png echo_service) invoice_file
   = ([st_spinner "Processing document using CTD's Gen AI..."; empty_content_error],
      inr Stop)
   /\ requests (trace (process_document (stub_env blank_pdf white_png echo_service)
                         invoice_file)) = [])
  /\ ~ In empty_content_error
         (trace (process_document (stub_env blank_pdf white_png echo_service) png_file)).
Proof.
  split.
  - apply (proj1 (empty_extraction_aborts
                    (stub_env blank_pdf white_png echo_service) invoice_file) []).
    vm_compute. reflexivity.
  - apply (proj2 (empty_extraction_aborts
                    (stub_env blank_pdf white_png echo_service) png_file)).
    vm_compute. reflexivity.
Defined.

(** C9.  The prompt is a function of the extracted content alone.  Two
    runs, in any two environments and on any two uploads, whose extracted
    content is the same text send the same request: every request of
    either run is the one built from build_prompt of that text, so the
    prompts are equal code point for code point. *)
Theorem prompt_depends_only_on_content
  (env1 env2 : Env) (file1 file2 : UploadedFile) (text : pystr) :
  extract env1 file1 = ret text ->
  extract env2 file2 = ret text ->
  (forall req : Request,
     In req (requests (trace (process_document env1 file1))) ->
     messages req
     = [ {| role := lit "user"; content := [ {| text := build_prompt text |} ] |} ])
  /\ (forall req1 req2 : Request,
        In req1 (requests (trace (process_document env1 file1))) ->
        In req2 (requests (trace (process_document env2 file2))) ->
        req1 = req2)
  /\ (forall other : pystr, other = text -> build_prompt other = build_prompt text).
Proof.
  intros Hext1 Hext2.
  assert (Hone : forall env file req,
             extract env file = ret text ->
             In req (requests (trace (process_document env file))) ->
             req = converse_request MODEL_ID (build_prompt text)).
  { intros env file req Hext Hin.
    rewrite (process_document_requests env file text Hext) in Hin.
    destruct (invoke_and_parse_requests env (build_prompt text)) as [Hr | Hr];
      rewrite Hr in Hin.
    - contradiction.
    - destruct Hin as [Hin | []]. symmetry. exact Hin. }
  split; [| split].
  - intros req Hin. rewrite (Hone env1 file1 req Hext1 Hin). reflexivity.
  - intros req1 req2 Hin1 Hin2.
    rewrite (Hone env1 file1 req1 Hext1 Hin1), (Hone env2 file2 req2 Hext2 Hin2).
    reflexivity.
  - intros other ->. reflexivity.
Qed.

Lemma prompt_depends_only_on_content_witness :
  messages (converse_request MODEL_ID (build_prompt (lit "Invoice #42, Total $100")))
  = [ {| role := lit "user";
         content := [ {| text := build_prompt (lit "Invoice #42, Total $100") |} ] |} ].
Proof.
  apply (proj1 (prompt_depends_only_on_content
                  (stub_env invoice_pdf white_png echo_service)
                  (stub_env invoice_pdf white_png prose_service)
                  invoice_file png_file_as_pdf
                  (lit "Invoice #42, Total $100")
                  ltac:(vm_compute; reflexivity)
                  ltac:(vm_compute; reflexivity))
           (converse_request MODEL_ID (build_prompt (lit "Invoice #42, Total $100")))).
  vm_compute. left. reflexivity.
Defined.

(** * Further properties *)

(** ** Stripping *)

Arguments isspace : simpl never.

Lemma isspace_LF : isspace LF = true.
Proof. vm_compute. reflexivity. Qed.

Lemma lstrip_all_space (s : pystr) : forallb isspace s = true -> lstrip s = [].
Proof.
  induction s as [| c s IH]; [reflexivity |].
  simpl. intros H. apply andb_true_iff in H. destruct H as [Hc Hs].
  rewrite Hc. exact (IH Hs).
Qed.

(** What lstrip leaves is empty or starts with a character that is not
    whitespace. *)
Lemma lstrip_head (s : pystr) :
  lstrip s = [] \/ exists c r, lstrip s = c :: r /\ isspace c = false.
Proof.
  induction s as [| c s IH]; [left; reflexivity |].
  simpl. destruct (isspace c) eqn:Hc; [exact IH |].
  right. exists c, s. split; [reflexivity | exact Hc].
Qed.

Lemma lstrip_snoc (l : pystr) (c : char) :
  isspace c = false -> lstrip (l ++ [c]) = lstrip l ++ [c].
Proof.
  intros Hc. induction l as [| x l IH]; simpl.
  - rewrite Hc. reflexivity.
  - destruct (isspace x); [exact IH | reflexivity].
Qed.

Lemma lstrip_idempotent (s : pystr) : lstrip (lstrip s) = lstrip s.
Proof.
  destruct (lstrip_head s) as [-> | [c [r [-> Hc]]]]; [reflexivity |].
  simpl. rewrite Hc. reflexivity.
Qed.

Lemma rstrip_idempotent (s : pystr) : rstrip (rstrip s) = rstrip s.
Proof. unfold rstrip. rewrite rev_involutive, lstrip_idempotent. reflexivity. Qed.

Lemma rstrip_cons (c : char) (s : pystr) :
  isspace c = false -> rstrip (c :: s) = c :: rstrip s.
Proof.
  intros Hc. unfold rstrip. simpl rev.
  rewrite (lstrip_snoc _ _ Hc), rev_app_distr. reflexivity.
Qed.

Lemma rstrip_snoc_space (s : pystr) (c : char) :
  isspace c = true -> rstrip (s ++ [c]) = rstrip s.
Proof.
  intros Hc. unfold rstrip. rewrite rev_app_distr. simpl. rewrite Hc. reflexivity.
Qed.

(** What rstrip leaves is empty or ends with a character that is not
    whitespace. *)
Lemma rstrip_last (s init : pystr) (c : char) :
  rstrip s = init ++ [c] -> isspace c = false.
Proof.
  unfold rstrip. intros H.
  destruct (lstrip_head (rev s)) as [Hnil | [d [r [Hd Hspace]]]].
  - rewrite Hnil in H. destruct init; discriminate H.
  - rewrite Hd in H. simpl in H. apply app_inj_tail in H.
    destruct H as [_ <-]. exact Hspace.
Qed.

Lemma strip_idempotent (s : pystr) : strip (strip s) = strip s.
Proof.
  unfold strip.
  destruct (lstrip_head s) as [-> | [c [r [-> Hc]]]]; [reflexivity |].
  rewrite (rstrip_cons c r Hc). simpl lstrip. rewrite Hc.
  rewrite (rstrip_cons c _ Hc), rstrip_idempotent. reflexivity.
Qed.

Lemma strip_first (s rest : pystr) (c : char) :
  strip s = c :: rest -> isspace c = false.
Proof.
  unfold strip.
  destruct (lstrip_head s) as [-> | [d [r [-> Hd]]]]; [discriminate |].
  rewrite (rstrip_cons d r Hd). intros H. injection H as <- _. exact Hd.
Qed.

Lemma strip_all_space (s : pystr) : forallb isspace s = true -> strip s = [].
Proof. intros H. unfold strip. rewrite (lstrip_all_space s H). reflexivity. Qed.

(** A whitespace character at the end does not change the stripped text. *)
Lemma strip_snoc_space (s : pystr) (c : char) :
  isspace c = true -> strip (s ++ [c]) = strip s.
Proof.
  intros Hc. unfold strip.
  destruct (forallb isspace s) eqn:Hs.
  - rewrite (lstrip_all_space s Hs).
    rewrite lstrip_all_space; [reflexivity |].
    rewrite forallb_app, Hs. simpl. rewrite Hc. reflexivity.
  - assert (Hl : lstrip (s ++ [c]) = lstrip s ++ [c]).
    { induction s as [| x s IH]; [discriminate Hs |].
      simpl in Hs |- *. destruct (isspace x); [exact (IH Hs) | reflexivity]. }
    rewrite Hl. apply rstrip_snoc_space. exact Hc.
Qed.

(** ** More on extract_text_from_pdf *)

Lemma newline_joined_join (texts : list pystr) :
  newline_joined texts
  = match texts with
    | [] => []
    | _ :: _ => join_lines texts ++ [LF]
    end.
Proof.
  induction texts as [| t rest IH]; [reflexivity |].
  unfold newline_joined in *. simpl flat_map. rewrite IH.
  destruct rest as [| r rs].
  - simpl. rewrite app_nil_r. reflexivity.
  - change (join_lines (t :: r :: rs)) with (t ++ [LF] ++ join_lines (r :: rs)).
    rewrite <- !app_assoc. reflexivity.
Qed.

Lemma strip_newline_joined (texts : list pystr) :
  strip (newline_joined texts) = strip (join_lines texts).
Proof.
  rewrite newline_joined_join. destruct texts as [| t rest]; [reflexivity |].
  apply strip_snoc_space. exact isspace_LF.
Qed.

Lemma newline_joined_blank (texts : list (option pystr)) :
  forallb blank_text texts = true ->
  forallb isspace (newline_joined (yielded texts)) = true.
Proof.
  induction texts as [| o texts IH]; [reflexivity |].
  intros H.
  change (forallb blank_text (o :: texts))
    with (blank_text o && forallb blank_text texts)%bool in H.
  apply andb_true_iff in H. destruct H as [Ho Hrest].
  destruct o as [[| c s] |]; try exact (IH Hrest).
  rewrite yielded_cons_text.
  change (newline_joined ((c :: s) :: yielded texts))
    with (((c :: s) ++ [LF]) ++ newline_joined (yielded texts)).
  rewrite !forallb_app, (IH Hrest).
  change (blank_text (Some (c :: s))) with (forallb isspace (c :: s)) in Ho.
  rewrite Ho.
  change (forallb isspace [LF]) with (isspace LF && true)%bool.
  rewrite isspace_LF. reflexivity.
Qed.

(** What extract_text_from_pdf returns is a stripped text. *)
Lemma extract_text_from_pdf_is_strip
  (env : Env) (file : UploadedFile) (t : list event) (text : pystr) :
  extract_text_from_pdf env file = (t, inl text) -> exists raw, text = strip raw.
Proof.
  unfold extract_text_from_pdf.
  destruct (pdfplumber_open env file) as [pdf | e]; [| discriminate].
  rewrite bind_lift_ok.
  destruct (pdf_pages_loop (pages pdf) []) as [t' [raw | h]]; simpl.
  - intros H. injection H as _ <-. exists raw. reflexivity.
  - discriminate.
Qed.

(** The loop stops at the first page whose extraction raises. *)
Lemma pdf_pages_loop_raises (before : list Page) :
  forall (texts : list (option pystr)) (page : Page) (after : list Page)
         (e : exn) (acc : pystr),
    map extract_text before = map Ok texts ->
    extract_text page = Raise e ->
    pdf_pages_loop (before ++ page :: after) acc = raise e.
Proof.
  induction before as [| p before IH]; intros texts page after e acc Hmap Hpage.
  - simpl. rewrite Hpage. reflexivity.
  - destruct texts as [| o texts]; [discriminate |].
    simpl in Hmap. injection Hmap as Hp Hrest.
    simpl app. simpl pdf_pages_loop. rewrite Hp, bind_lift_ok.
    destruct o as [[| c s] |]; exact (IH texts page after e _ Hrest Hpage).
Qed.

(** Whatever the pages give, the text that extract_text_from_pdf returns
    is already stripped: stripping it again changes nothing, it does not
    start with a whitespace character and it does not end with one. *)
Theorem extract_text_from_pdf_result_is_stripped
  (env : Env) (file : UploadedFile) (t : list event) (text : pystr) :
  extract_text_from_pdf env file = (t, inl text) ->
  strip text = text
  /\ (forall (c : char) (rest : pystr), text = c :: rest -> isspace c = false)
  /\ (forall (init : pystr) (c : char), text = init ++ [c] -> isspace c = false).
Proof.
  intros H. destruct (extract_text_from_pdf_is_strip env file t text H) as [raw ->].
  split; [apply strip_idempotent |]. split.
  - intros c rest Heq. exact (strip_first raw rest c Heq).
  - intros init c Heq. exact (rstrip_last (lstrip raw) init c Heq).
Qed.

Lemma extract_text_from_pdf_result_is_stripped_witness :
  strip (lit "Invoice #42") = lit "Invoice #42"
  /\ (forall (c : char) (rest : pystr),
        lit "Invoice #42" = c :: rest -> isspace c = false)
  /\ (forall (init : pystr) (c : char),
        lit "Invoice #42" = init ++ [c] -> isspace c = false).
Proof.
  apply (extract_text_from_pdf_result_is_stripped
           (stub_env indented_pdf white_png echo_service) invoice_file
           [] (lit "Invoice #42")).
  vm_compute. reflexivity.
Defined.

(** The text that extract_text_from_pdf returns is "\n".join of the
    non-empty page texts, stripped: between two texts there is exactly
    the one newline the loop added, and the newline after the last text
    is gone. *)
Theorem extract_text_from_pdf_is_stripped_join_lines
  (env : Env) (file : UploadedFile) (pdf : PDF) (texts : list (option pystr)) :
  pdfplumber_open env file = Ok pdf ->
  map extract_text (pages pdf) = map Ok texts ->
  extract_text_from_pdf env file = ret (strip (join_lines (yielded texts))).
Proof.
  intros Hopen Hpages. unfold extract_text_from_pdf.
  rewrite Hopen, bind_lift_ok.
  rewrite (pdf_pages_loop_texts _ texts [] Hpages), bind_ret.
  rewrite app_nil_l, strip_newline_joined. reflexivity.
Qed.

Lemma extract_text_from_pdf_is_stripped_join_lines_witness :
  extract_text_from_pdf (env_of (Ok two_text_pdf) (Ok white_png)
                           (Raise no_credentials_error) array_loads) invoice_file
  = ret (strip (join_lines (yielded [Some (lit "Invoice #42"); None;
                                      Some (lit "Total $100")]))).
Proof.
  apply (extract_text_from_pdf_is_stripped_join_lines
           (env_of (Ok two_text_pdf) (Ok white_png)
              (Raise no_credentials_error) array_loads)
           invoice_file two_text_pdf
           [Some (lit "Invoice #42"); None; Some (lit "Total $100")]).
  - reflexivity.
  - reflexivity.
Defined.

(** When a page's extraction raises, extract_text_from_pdf raises that
    exception: the text of the earlier pages is lost and the later pages
    are not looked at. *)
Theorem extract_text_from_pdf_page_failure
  (env : Env) (file : UploadedFile) (pdf : PDF)
  (before after : list Page) (page : Page) (texts : list (option pystr)) (e : exn) :
  pdfplumber_open env file = Ok pdf ->
  pages pdf = before ++ page :: after ->
  map extract_text before = map Ok texts ->
  extract_text page = Raise e ->
  extract_text_from_pdf env file = raise e.
Proof.
  intros Hopen Hpages Hbefore Hpage. unfold extract_text_from_pdf.
  rewrite Hopen, bind_lift_ok, Hpages.
  rewrite (pdf_pages_loop_raises before texts page after e [] Hbefore Hpage).
  reflexivity.
Qed.

Lemma extract_text_from_pdf_page_failure_witness :
  extract_text_from_pdf (env_of (Ok damaged_pdf) (Ok white_png)
                           (Raise no_credentials_error) array_loads) invoice_file
  = raise pdf_syntax_error.
Proof.
  apply (extract_text_from_pdf_page_failure
           (env_of (Ok damaged_pdf) (Ok white_png)
              (Raise no_credentials_error) array_loads)
           invoice_file damaged_pdf
           [ {| extract_text := Ok (Some (lit "Invoice #42")) |} ]
           [ {| extract_text := Ok (Some (lit "Total $100")) |} ]
           {| extract_text := Raise pdf_syntax_error |}
           [Some (lit "Invoice #42")] pdf_syntax_error).
  - reflexivity.
  - reflexivity.
  - reflexivity.
  - reflexivity.
Defined.

(** A PDF none of whose pages has anything but whitespace (no pages at
    all, pages without text, pages of blanks) gives the empty text, and
    the run ends with the empty-content error right after the spinner. *)
Theorem blank_pdf_aborts
  (env : Env) (file : UploadedFile) (pdf : PDF) (texts : list (option pystr)) :
  pystr_eqb (type file) (lit "application/pdf") = true ->
  pdfplumber_open env file = Ok pdf ->
  map extract_text (pages pdf) = map Ok texts ->
  forallb blank_text texts = true ->
  extract_text_from_pdf env file = ret []
  /\ process_document env file
     = ([st_spinner "Processing document using CTD's Gen AI..."; empty_content_error],
        inr Stop).
Proof.
  intros Htype Hopen Hpages Hblank.
  assert (Hext : extract_text_from_pdf env file = ret []).
  { unfold extract_text_from_pdf.
    rewrite Hopen, bind_lift_ok.
    rewrite (pdf_pages_loop_texts _ texts [] Hpages), bind_ret.
    rewrite app_nil_l, (strip_all_space _ (newline_joined_blank texts Hblank)).
    reflexivity. }
  split; [exact Hext |].
  unfold process_document, extract, extract_by_type.
  rewrite Htype, Hext. reflexivity.
Qed.

Lemma blank_pdf_aborts_witness :
  extract_text_from_pdf (env_of (Ok whitespace_pdf) (Ok white_png)
                           (Raise no_credentials_error) array_loads) invoice_file
  = ret []
  /\ process_document (env_of (Ok whitespace_pdf) (Ok white_png)
                         (Raise no_credentials_error) array_loads) invoice_file
     = ([st_spinner "Processing document using CTD's Gen AI..."; empty_content_error],
        inr Stop).
Proof.
  apply (blank_pdf_aborts
           (env_of (Ok whitespace_pdf) (Ok white_png)
              (Raise no_credentials_error) array_loads)
           invoice_file whitespace_pdf [Some []; Some [32; 32; 12]; None]).
  - vm_compute. reflexivity.
  - reflexivity.
  - reflexivity.
  - vm_compute. reflexivity.
Defined.

(** ** More on converse *)

Lemma startswith_app (p s : pystr) : startswith (p ++ s) p = true.
Proof.
  induction p as [| c p IH]; [destruct s; reflexivity |].
  simpl. rewrite N.eqb_refl. exact IH.
Qed.

(** converse has two ways to end and no other: it returns a value, or it
    raises a RuntimeError whose message starts with "Bedrock invocation
    failed: ".  It never stops the script and lets no exception of another
    class through, whether the call failed or the reply had another shape
    than expected. *)
Theorem converse_raises_only_RuntimeError
  (brt : Client) (model_id user_message : pystr) :
  match outcome (converse brt model_id user_message) with
  | inl _ => True
  | inr Stop => False
  | inr (Exc e) =>
      exn_class e = "RuntimeError"%string
      /\ startswith (exn_str e) (lit "Bedrock invocation failed: ") = true
  end.
Proof.
  rewrite converse_cases. unfold outcome, snd.
  destruct (client_converse brt (converse_request model_id user_message))
    as [response | e].
  - destruct (reply_text response) as [t | e]; [exact I |].
    split; [reflexivity | apply startswith_app].
  - split; [reflexivity | apply startswith_app].
Qed.

(** A reply without the key output makes line 49 raise KeyError, which
    converse wraps like a failed call: the caller gets the RuntimeError
    "Bedrock invocation failed: 'output'". *)
Theorem converse_reply_without_output
  (brt : Client) (model_id user_message : pystr) (reply : dict) :
  client_converse brt (converse_request model_id user_message) = Ok (VDict reply) ->
  dict_lookup reply (lit "output") = None ->
  converse brt model_id user_message
  = ([brt_converse (converse_request model_id user_message)],
     inr (Exc (invocation_failed (KeyError (repr_plain (lit "output"))))))
  /\ exn_str (invocation_failed (KeyError (repr_plain (lit "output"))))
     = lit "Bedrock invocation failed: 'output'".
Proof.
  intros Hreply Hlookup. split; [| vm_compute; reflexivity].
  rewrite converse_cases, Hreply.
  unfold reply_text, and_then, py_getitem. rewrite Hlookup. reflexivity.
Qed.

Lemma converse_reply_without_output_witness :
  converse {| client_converse := fun _ => Ok (VDict reply_without_output) |}
    MODEL_ID (lit "hello")
  = ([brt_converse (converse_request MODEL_ID (lit "hello"))],
     inr (Exc (invocation_failed (KeyError (repr_plain (lit "output"))))))
  /\ exn_str (invocation_failed (KeyError (repr_plain (lit "output"))))
     = lit "Bedrock invocation failed: 'output'".
Proof.
  apply (converse_reply_without_output
           {| client_converse := fun _ => Ok (VDict reply_without_output) |}
           MODEL_ID (lit "hello") reply_without_output).
  - reflexivity.
  - vm_compute. reflexivity.
Defined.

(** A reply whose message has an empty content list makes the index 0 of
    line 49 raise IndexError, which converse wraps: the caller gets the
    RuntimeError "Bedrock invocation failed: list index out of range". *)
Theorem converse_reply_without_content
  (brt : Client) (model_id user_message : pystr) (reply output message : dict) :
  client_converse brt (converse_request model_id user_message) = Ok (VDict reply) ->
  dict_lookup reply (lit "output") = Some (VDict output) ->
  dict_lookup output (lit "message") = Some (VDict message) ->
  dict_lookup message (lit "content") = Some (VList []) ->
  converse brt model_id user_message
  = ([brt_converse (converse_request model_id user_message)],
     inr (Exc (invocation_failed (IndexError (lit "list index out of range")))))
  /\ exn_str (invocation_failed (IndexError (lit "list index out of range")))
     = lit "Bedrock invocation failed: list index out of range".
Proof.
  intros Hreply Houtput Hmessage Hcontent. split; [| vm_compute; reflexivity].
  rewrite converse_cases, Hreply.
  unfold reply_text, and_then, py_getitem.
  rewrite Houtput, Hmessage, Hcontent, seq_index_first. reflexivity.
Qed.

Lemma converse_reply_without_content_witness :
  converse {| client_converse := fun _ => Ok (VDict reply_without_content) |}
    MODEL_ID (lit "hello")
  = ([brt_converse (converse_request MODEL_ID (lit "hello"))],
     inr (Exc (invocation_failed (IndexError (lit "list index out of range")))))
  /\ exn_str (invocation_failed (IndexError (lit "list index out of range")))
     = lit "Bedrock invocation failed: list index out of range".
Proof.
  apply (converse_reply_without_content
           {| client_converse := fun _ => Ok (VDict reply_without_content) |}
           MODEL_ID (lit "hello") reply_without_content
           [ (lit "message",
               VDict [ (lit "role", VStr (lit "assistant"));
                       (lit "content", VList []) ]) ]
           [ (lit "role", VStr (lit "assistant")); (lit "content", VList []) ]).
  - reflexivity.
  - vm_compute. reflexivity.
  - vm_compute. reflexivity.
  - vm_compute. reflexivity.
Defined.

(** ** More on build_prompt *)

(** The prompt determines the content: two contents give the same prompt
    only if they are the same text.  The content is spliced in as it is,
    so nothing of it is lost or merged in the prompt. *)
Theorem build_prompt_injective (a b : pystr) :
  build_prompt a = build_prompt b <-> a = b.
Proof.
  split; [| intros ->; reflexivity].
  unfold build_prompt. intros H.
  repeat (apply app_inv_head in H).
  apply app_inv_tail in H. exact H.
Qed.

(** The content sits at a fixed place of the prompt.  The first 872
    characters are template and do not depend on the content; they end
    with the line of the opening marker.  Then comes the content as it
    is, followed by nothing but a newline and the line of the closing
    marker.  So the prompt is 887 characters longer than the content. *)
Theorem build_prompt_splices_content (document_text : pystr) :
  firstn 872 (build_prompt document_text) = firstn 872 (build_prompt [])
  /\ skipn 859 (firstn 872 (build_prompt document_text)) = line "<Input_Text>"
  /\ skipn 872 (build_prompt document_text)
     = document_text ++ [LF] ++ line "</Input_Text>"
  /\ List.length (build_prompt document_text) = (List.length document_text + 887)%nat.
Proof.
  assert (Hhead : firstn 872 (build_prompt document_text)
                  = firstn 872 (build_prompt [])).
  { vm_compute. reflexivity. }
  assert (Htail : skipn 872 (build_prompt document_text)
                  = document_text ++ [LF] ++ line "</Input_Text>").
  { vm_compute. reflexivity. }
  split; [exact Hhead |].
  split; [rewrite Hhead; vm_compute; reflexivity |].
  split; [exact Htail |].
  rewrite <- (firstn_skipn 872 (build_prompt document_text)), Hhead, Htail.
  rewrite !length_app.
  replace (List.length (firstn 872 (build_prompt []))) with 872%nat
    by (vm_compute; reflexivity).
  replace (List.length (line "</Input_Text>")) with 14%nat
    by (vm_compute; reflexivity).
  cbn [List.length]. lia.
Qed.

(** ** More on the run *)

Lemma extract_value (env : Env) (file : UploadedFile) (t : list event) (text : pystr) :
  extract env file = (t, inl text) -> t = [] /\ text <> [].
Proof.
  unfold extract.
  destruct (extract_by_type env file) as [t0 [x | h]] eqn:Hby; [| discriminate].
  pose proof (extract_by_type_value env file t0 x Hby) as ->.
  rewrite bind_value. destruct x as [| c x]; simpl; intros H.
  - discriminate H.
  - injection H as <- <-. split; [reflexivity | discriminate].
Qed.

Lemma extract_halt_requests (env : Env) (file : UploadedFile) (t : list event) (h : halt) :
  extract env file = (t, inr h) -> requests t = [].
Proof.
  unfold extract.
  destruct (extract_by_type_quiet env file) as [Hq | Hq].
  - destruct (extract_by_type env file) as [t0 [x | h0]]; simpl in Hq; subst t0.
    + rewrite bind_value. destruct x as [| c x]; simpl; intros H.
      * injection H as <- _. reflexivity.
      * discriminate H.
    + simpl. intros H. injection H as <- _. reflexivity.
  - rewrite Hq. simpl. intros H. injection H as <- _. reflexivity.
Qed.

(** A run sends no request, or the one request built from the extracted
    text. *)
Lemma process_document_requests_cases (env : Env) (file : UploadedFile) :
  requests (trace (process_document env file)) = []
  \/ exists text,
       extract env file = ret text
       /\ requests (trace (process_document env file))
          = [converse_request MODEL_ID (build_prompt text)].
Proof.
  destruct (extract env file) as [t [text | h]] eqn:Hext.
  - destruct (extract_value env file t text Hext) as [-> _].
    rewrite (process_document_requests env file text Hext).
    destruct (invoke_and_parse_requests env (build_prompt text)) as [Hr | Hr].
    + left. exact Hr.
    + right. exists text. split; [reflexivity | exact Hr].
  - left. unfold process_document. rewrite Hext. simpl.
    exact (extract_halt_requests env file t h Hext).
Qed.

Lemma app_requests (env : Env) (upload : option UploadedFile) (clicked : bool) :
  requests (trace (app env upload clicked))
  = match upload with
    | Some f => if clicked then requests (trace (process_document env f)) else []
    | None => []
    end.
Proof.
  destruct upload as [f |]; [destruct clicked |]; unfold app;
    rewrite ?bind_emit; reflexivity.
Qed.

Lemma dict_lookup_cons_other (k key : pystr) (v : value) (d : dict) :
  pystr_eqb k key = false -> dict_lookup ((k, v) :: d) key = dict_lookup d key.
Proof. intros H. simpl. rewrite H. reflexivity. Qed.

Lemma pystr_eqb_not_in (k key : pystr) (keys : list pystr) :
  ~ In k keys -> In key keys -> pystr_eqb k key = false.
Proof.
  intros Hnot Hin. destruct (pystr_eqb k key) eqn:Heq; [| reflexivity].
  apply pystr_eqb_eq in Heq. subst key. contradiction.
Qed.

(** An upload whose declared type is neither application/pdf nor starts
    with image/ is refused at once: the run shows "Unsupported file type"
    and stops, whatever the file holds and whatever the libraries would
    do with it. *)
Theorem unsupported_type_stops (env : Env) (file : UploadedFile) :
  pystr_eqb (type file) (lit "application/pdf") = false ->
  startswith (type file) (lit "image/") = false ->
  process_document env file
  = ([st_spinner "Processing document using CTD's Gen AI...";
      st_error "Unsupported file type"],
     inr Stop).
Proof.
  intros Hpdf Himage. unfold process_document, extract, extract_by_type.
  rewrite Hpdf, Himage. reflexivity.
Qed.

Lemma unsupported_type_stops_witness :
  process_document (stub_env invoice_pdf white_png echo_service) text_file
  = ([st_spinner "Processing document using CTD's Gen AI...";
      st_error "Unsupported file type"],
     inr Stop).
Proof.
  apply (unsupported_type_stops (stub_env invoice_pdf white_png echo_service) text_file).
  - vm_compute. reflexivity.
  - vm_compute. reflexivity.
Defined.

(** The script does not catch what the extraction libraries raise.  When
    opening the PDF, or decoding the image, raises, the run ends with that
    exception right after the spinner: no error text of the script is
    shown and no request is sent. *)
Theorem extraction_failure_is_unhandled
  (env : Env) (file : UploadedFile) (e : exn) :
  (pystr_eqb (type file) (lit "application/pdf") = true
   /\ pdfplumber_open env file = Raise e)
  \/ (startswith (type file) (lit "image/") = true
      /\ Image_open env file = Raise e) ->
  process_document env file
  = ([st_spinner "Processing document using CTD's Gen AI..."], inr (Exc e)).
Proof.
  intros [[Htype Hopen] | [Htype Hopen]];
    unfold process_document, extract, extract_by_type.
  - unfold extract_text_from_pdf. rewrite Htype, Hopen. reflexivity.
  - unfold process_image.
    rewrite (image_type_is_not_pdf _ Htype), Htype, Hopen. reflexivity.
Qed.

Lemma extraction_failure_is_unhandled_witness :
  process_document (env_of (Raise pdf_syntax_error) (Raise unidentified_image_error)
                      (Raise no_credentials_error) array_loads) png_file
  = ([st_spinner "Processing document using CTD's Gen AI..."],
     inr (Exc unidentified_image_error)).
Proof.
  apply (extraction_failure_is_unhandled
           (env_of (Raise pdf_syntax_error) (Raise unidentified_image_error)
              (Raise no_credentials_error) array_loads)
           png_file unidentified_image_error).
  right. split.
  - vm_compute. reflexivity.
  - reflexivity.
Defined.

(** When the client cannot be created, the run reports the failure with
    the text of the exception and an empty raw response, and stops; no
    request is sent. *)
Theorem client_creation_failure_is_reported
  (env : Env) (file : UploadedFile) (text : pystr) (e : exn) :
  extract env file = ret text ->
  boto3_client env "bedrock-runtime"
    (AWS_REGION env) (AWS_ACCESS_KEY env) (AWS_SECRET_KEY env) = Raise e ->
  process_document env file
  = ([ st_spinner "Processing document using CTD's Gen AI...";
       st_error "Failed to process document";
       st_text (VStr (exn_str e));
       st_text (VStr []) ],
     inr Stop).
Proof.
  intros Hext Hclient.
  rewrite (process_document_after_extract env file text Hext).
  rewrite invoke_and_parse_cases, Hclient. reflexivity.
Qed.

Lemma client_creation_failure_is_reported_witness :
  process_document (env_of (Ok invoice_pdf) (Ok white_png)
                      (Raise no_credentials_error) array_loads) invoice_file
  = ([ st_spinner "Processing document using CTD's Gen AI...";
       st_error "Failed to process document";
       st_text (VStr (exn_str no_credentials_error));
       st_text (VStr []) ],
     inr Stop).
Proof.
  apply (client_creation_failure_is_reported
           (env_of (Ok invoice_pdf) (Ok white_png)
              (Raise no_credentials_error) array_loads)
           invoice_file (lit "Invoice #42, Total $100") no_credentials_error).
  - vm_compute. reflexivity.
  - reflexivity.
Defined.

(** When the remote call raises, the run shows, after the one request,
    the failure, the message "Bedrock invocation failed: " followed by the
    text of the cause, and an empty raw response, and stops. *)
Theorem remote_failure_is_reported
  (env : Env) (file : UploadedFile) (text : pystr) (brt : Client) (e : exn) :
  extract env file = ret text ->
  boto3_client env "bedrock-runtime"
    (AWS_REGION env) (AWS_ACCESS_KEY env) (AWS_SECRET_KEY env) = Ok brt ->
  client_converse brt (converse_request MODEL_ID (build_prompt text)) = Raise e ->
  process_document env file
  = ([ st_spinner "Processing document using CTD's Gen AI...";
       brt_converse (converse_request MODEL_ID (build_prompt text));
       st_error "Failed to process document";
       st_text (VStr (lit "Bedrock invocation failed: " ++ exn_str e));
       st_text (VStr []) ],
     inr Stop).
Proof.
  intros Hext Hclient Hcall.
  rewrite (process_document_after_extract env file text Hext).
  rewrite invoke_and_parse_cases, Hclient, converse_cases, Hcall. reflexivity.
Qed.

Lemma remote_failure_is_reported_witness :
  process_document (stub_env invoice_pdf white_png down_service) invoice_file
  = ([ st_spinner "Processing document using CTD's Gen AI...";
       brt_converse (converse_request MODEL_ID
                       (build_prompt (lit "Invoice #42, Total $100")));
       st_error "Failed to process document";
       st_text (VStr (lit "Bedrock invocation failed: " ++ exn_str timeout_error));
       st_text (VStr []) ],
     inr Stop).
Proof.
  apply (remote_failure_is_reported
           (stub_env invoice_pdf white_png down_service) invoice_file
           (lit "Invoice #42, Total $100")
           {| client_converse := down_service |} timeout_error).
  - vm_compute. reflexivity.
  - reflexivity.
  - reflexivity.
Defined.

(** A reply that parses, but not to a JSON object (an array, a string, a
    number, true, false or null), is not caught by the try statement:
    after the request the run shows the header and the columns of the
    summary, and then ends with the AttributeError of the first
    parsed.get, with no result and no error text of the script. *)
Theorem non_object_reply_is_unhandled
  (env : Env) (file : UploadedFile) (text : pystr) (brt : Client)
  (llm_response parsed : value) :
  extract env file = ret text ->
  boto3_client env "bedrock-runtime"
    (AWS_REGION env) (AWS_ACCESS_KEY env) (AWS_SECRET_KEY env) = Ok brt ->
  outcome (converse brt MODEL_ID (build_prompt text)) = inl llm_response ->
  py_json_loads env llm_response = Ok parsed ->
  (forall d : dict, parsed <> VDict d) ->
  process_document env file
  = ([ st_spinner "Processing document using CTD's Gen AI...";
       brt_converse (converse_request MODEL_ID (build_prompt text));
       st_subheader "📌 Document Summary";
       st_columns 3 ],
     inr (Exc (AttributeError
                 ([39] ++ lit (type_name parsed)
                  ++ lit "' object has no attribute 'get'")))).
Proof.
  intros Hext Hclient Hreply Hloads Hnot.
  rewrite (process_document_after_extract env file text Hext).
  rewrite invoke_and_parse_cases, Hclient, Hreply, Hloads.
  destruct parsed; try reflexivity.
  exfalso. eapply Hnot. reflexivity.
Qed.

Lemma non_object_reply_is_unhandled_witness :
  process_document (env_of (Ok invoice_pdf) (Ok white_png)
                      (Ok {| client_converse := prose_service |}) array_loads)
    invoice_file
  = ([ st_spinner "Processing document using CTD's Gen AI...";
       brt_converse (converse_request MODEL_ID
                       (build_prompt (lit "Invoice #42, Total $100")));
       st_subheader "📌 Document Summary";
       st_columns 3 ],
     inr (Exc (AttributeError
                 ([39] ++ lit (type_name (VList [VInt 1; VInt 2]))
                  ++ lit "' object has no attribute 'get'")))).
Proof.
  apply (non_object_reply_is_unhandled
           (env_of (Ok invoice_pdf) (Ok white_png)
              (Ok {| client_converse := prose_service |}) array_loads)
           invoice_file (lit "Invoice #42, Total $100")
           {| client_converse := prose_service |}
           (VStr (lit "Sorry, I cannot process this.")) (VList [VInt 1; VInt 2])).
  - vm_compute. reflexivity.
  - reflexivity.
  - vm_compute. reflexivity.
  - reflexivity.
  - intros d H. discriminate H.
Defined.

(** The stages compose.  When extraction gives a text, the client is
    created, converse returns a value and that value parses to a JSON
    object, the run is: the spinner, the one request carrying
    build_prompt of the text, and the rendering of the interpreted
    object, with the extracted text in the text area; it ends normally. *)
Theorem successful_run
  (env : Env) (file : UploadedFile) (text : pystr) (brt : Client)
  (llm_response : value) (d : dict) :
  extract env file = ret text ->
  boto3_client env "bedrock-runtime"
    (AWS_REGION env) (AWS_ACCESS_KEY env) (AWS_SECRET_KEY env) = Ok brt ->
  outcome (converse brt MODEL_ID (build_prompt text)) = inl llm_response ->
  py_json_loads env llm_response = Ok (VDict d) ->
  process_document env file
  = (st_spinner "Processing document using CTD's Gen AI..."
     :: brt_converse (converse_request MODEL_ID (build_prompt text))
     :: rendering env text (interpreted d),
     inl tt).
Proof.
  intros Hext Hclient Hreply Hloads.
  rewrite (process_document_after_extract env file text Hext).
  rewrite invoke_and_parse_cases, Hclient, Hreply, Hloads.
  rewrite bind_emit, bind_value, present_dict. reflexivity.
Qed.

Lemma successful_run_witness :
  process_document (stub_env invoice_pdf white_png echo_service) invoice_file
  = (st_spinner "Processing document using CTD's Gen AI..."
     :: brt_converse (converse_request MODEL_ID
                        (build_prompt (lit "Invoice #42, Total $100")))
     :: rendering (stub_env invoice_pdf white_png echo_service)
          (lit "Invoice #42, Total $100") (interpreted invoice_reply),
     inl tt).
Proof.
  apply (successful_run
           (stub_env invoice_pdf white_png echo_service) invoice_file
           (lit "Invoice #42, Total $100")
           {| client_converse := echo_service |}
           (VStr invoice_reply_text) invoice_reply).
  - vm_compute. reflexivity.
  - reflexivity.
  - vm_compute. reflexivity.
  - vm_compute. reflexivity.
Defined.

(** A run of the script sends at most one request.  It sends one only
    when a file is uploaded, the process button was clicked and extraction
    gave a non-empty text, and the request is then the one for the fixed
    model with build_prompt of that text. *)
Theorem at_most_one_request_per_run
  (env : Env) (upload : option UploadedFile) (clicked : bool) :
  (List.length (requests (trace (app env upload clicked))) <= 1)%nat
  /\ (forall req : Request,
        In req (requests (trace (app env upload clicked))) ->
        clicked = true
        /\ exists (f : UploadedFile) (text : pystr),
             upload = Some f
             /\ extract env f = ret text
             /\ text <> []
             /\ req = converse_request MODEL_ID (build_prompt text)).
Proof.
  rewrite app_requests.
  destruct upload as [f |]; [destruct clicked |];
    try (split; [simpl; lia | intros req []]).
  destruct (process_document_requests_cases env f) as [Hr | [text [Hext Hr]]];
    rewrite Hr.
  - split; [simpl; lia | intros req []].
  - split; [simpl; lia |].
    intros req [<- | []]. split; [reflexivity |].
    exists f, text. repeat split; try assumption.
    exact (proj2 (extract_value env f [] text Hext)).
Qed.

(** Keys of the reply other than the six the script reads are ignored:
    adding one changes neither the interpreted result nor anything the
    run shows. *)
Theorem unknown_keys_are_ignored
  (env : Env) (extracted_text : pystr) (k : pystr) (v : value) (d : dict) :
  ~ In k schema_keys ->
  interpreted ((k, v) :: d) = interpreted d
  /\ present env extracted_text (VDict ((k, v) :: d))
     = present env extracted_text (VDict d).
Proof.
  intros Hnot.
  assert (Hint : interpreted ((k, v) :: d) = interpreted d).
  { unfold interpreted, dict_get.
    rewrite !dict_lookup_cons_other;
      try (apply (pystr_eqb_not_in k _ schema_keys Hnot); unfold schema_keys;
           simpl; tauto).
    reflexivity. }
  split; [exact Hint |].
  rewrite !present_dict, Hint. reflexivity.
Qed.

Lemma unknown_keys_are_ignored_witness :
  interpreted ((lit "notes", VStr (lit "scanned copy")) :: invoice_reply)
  = interpreted invoice_reply
  /\ present (stub_env invoice_pdf white_png echo_service)
       (lit "Invoice #42, Total $100")
       (VDict ((lit "notes", VStr (lit "scanned copy")) :: invoice_reply))
     = present (stub_env invoice_pdf white_png echo_service)
         (lit "Invoice #42, Total $100") (VDict invoice_reply).
Proof.
  apply (unknown_keys_are_ignored
           (stub_env invoice_pdf white_png echo_service)
           (lit "Invoice #42, Total $100")
           (lit "notes") (VStr (lit "scanned copy")) invoice_reply).
  vm_compute. intros H.
  repeat (destruct H as [H | H]; [discriminate H |]). exact H.
Defined.
